(** * Traffic severity prediction: the prediction engine and the history store

    A shallow embedding of [model_loader.py], [utils.py], [config.py] and
    the button handler and the sidebar of [components.py], followed by the
    properties of the specification that concern them and by further
    properties of the code.

    Conventions of the embedding.
    - Python numbers coming from the form (finite floats and ints) are
      exact rationals [Q]; comparisons are the numeric ones ([Qeq], [Qlt]),
      so a float [7.0] and an int [7] are the same hour.
    - A Python function that reads or writes ambient state (Streamlit's
      resource cache, its session state, messages sent to [st.error]) and may
      raise is a computation of the monad [Py S], over the state [S] it
      touches.  An exception is represented by its message, [str(e)].
    - [None] results are [option]. *)

From Stdlib Require Import ZArith QArith Qabs Lqa Qcanon.
From stdpp Require Import base option list strings pretty gmap sorting.

Set Default Proof Using "Type".
Open Scope Z_scope.

(** ** Python computations: state and exceptions *)

Definition exn : Type := string.

Definition Py (S A : Type) : Type := S → (exn + A) * S.

Global Instance Py_ret {S} : MRet (Py S) := λ A a s, (inr a, s).

Definition raise {S A} (e : exn) : Py S A := λ s, (inl e, s).

Global Instance Py_bind {S} : MBind (Py S) := λ A B k c s,
  match c s with
  | (inr a, s') => k a s'
  | (inl e, s') => (inl e, s')
  end.

(** [try: c  except Exception as e: h e] *)
Definition try_except {S A} (c : Py S A) (h : exn → Py S A) : Py S A :=
  λ s, match c s with
       | (inr a, s') => (inr a, s')
       | (inl e, s') => h e s'
       end.

(** Lifting of a library call that either raises or returns. *)
Definition call {S A} (r : exn + A) : Py S A :=
  match r with
  | inl e => raise e
  | inr a => mret a
  end.

(** The value of a call that returned, [None] for one that raised. *)
Definition returned {A} (r : exn + A) : option A :=
  match r with
  | inl _ => None
  | inr a => Some a
  end.

(** An [if] without [else] falls through. *)
Definition pass {S} : Py S unit := mret ().

(** [not l], [len(l) == 0] *)
Definition is_nil {A} (l : list A) : bool :=
  match l with [] => true | _ :: _ => false end.

(** [l[i]] for a list and a non-negative literal index. *)
Definition getitem {S A} (l : list A) (i : nat) : Py S A :=
  match l !! i with
  | Some x => mret x
  | None => raise "list index out of range"
  end.

(** ** Python numbers *)

Definition Qlt_bool (x y : Q) : bool := negb (Qle_bool y x).

(** [x in l] for a list of numbers: some element compares equal. *)
Definition py_in (x : Q) (l : list Q) : bool := existsb (Qeq_bool x) l.

(** [int(x)] truncates toward zero. *)
Definition py_int (x : Q) : Z := Z.quot (Qnum x) (Z.pos (Qden x)).

(** ** model_loader.py *)

Module model_loader.

(** A fitted or unfitted scikit-learn estimator, by what its method does on
    a single row (the [reshape(1, -1)] of the eight features). *)
Record Model := { predict : list Q → exn + list Q }.
Record Scaler := { transform : list Q → exn + list Q }.

(** What is found at a pickle's path. *)
Inductive pickle_file (A : Type) : Type :=
| NoFile
| BadFile (e : exn)          (* [open] or [pickle.load] raises [e] *)
| Pickled (a : A).
Arguments NoFile {A}.
Arguments BadFile {A} e.
Arguments Pickled {A} a.

(** The process as the loader sees it: the two files, the directory
    creation, the scaler that [StandardScaler()] constructs, the two
    [st.cache_resource] caches, and the messages shown by [st.error].  A
    cache entry holds the value returned and the messages the function
    showed while it computed it. *)
Record process := {
  model_pkl : pickle_file Model;
  scaler_pkl : pickle_file Scaler;
  makedirs_raises : option exn;
  StandardScaler : Scaler;
  load_model_cache : option (option Model * list string);
  load_scaler_cache : option (Scaler * list string);
  st_errors : list string
}.

Definition st_error (msg : string) : Py process unit := λ p,
  (inr (), {| model_pkl := model_pkl p; scaler_pkl := scaler_pkl p;
              makedirs_raises := makedirs_raises p;
              StandardScaler := StandardScaler p;
              load_model_cache := load_model_cache p;
              load_scaler_cache := load_scaler_cache p;
              st_errors := st_errors p ++ [msg] |}).

Definition set_load_model_cache (v : option Model * list string)
    : Py process unit := λ p,
  (inr (), {| model_pkl := model_pkl p; scaler_pkl := scaler_pkl p;
              makedirs_raises := makedirs_raises p;
              StandardScaler := StandardScaler p;
              load_model_cache := Some v;
              load_scaler_cache := load_scaler_cache p;
              st_errors := st_errors p |}).

Definition set_load_scaler_cache (v : Scaler * list string)
    : Py process unit := λ p,
  (inr (), {| model_pkl := model_pkl p; scaler_pkl := scaler_pkl p;
              makedirs_raises := makedirs_raises p;
              StandardScaler := StandardScaler p;
              load_model_cache := load_model_cache p;
              load_scaler_cache := Some v;
              st_errors := st_errors p |}).

Definition get {A} (f : process → A) : Py process A := λ p, (inr (f p), p).

(** Showing again the messages recorded with a cache entry: [st.error] for
    each, in order. *)
Definition replay (msgs : list string) : Py process unit := λ p,
  (inr (), {| model_pkl := model_pkl p; scaler_pkl := scaler_pkl p;
              makedirs_raises := makedirs_raises p;
              StandardScaler := StandardScaler p;
              load_model_cache := load_model_cache p;
              load_scaler_cache := load_scaler_cache p;
              st_errors := st_errors p ++ msgs |}).

(** [@st.cache_resource]: the body runs on the first call only.  Its return
    value is stored with the messages it showed meanwhile; every later call
    hands out the stored value and shows the stored messages again. *)
Definition cache_resource {A}
    (cached : process → option (A * list string))
    (store : A * list string → Py process unit) (body : Py process A)
    : Py process A :=
  hit ← get cached;
  match hit with
  | Some entry => replay entry.2;; mret entry.1
  | None =>
      before ← get st_errors;
      v ← body;
      after ← get st_errors;
      store (v, drop (length before) after);;
      mret v
  end.

Definition os_path_exists {A} (f : pickle_file A) : bool :=
  match f with NoFile => false | _ => true end.

Definition os_makedirs : Py process unit :=
  r ← get makedirs_raises;
  match r with Some e => raise e | None => mret () end.

(** [with open(path, 'rb') as file: pickle.load(file)] *)
Definition pickle_load {A} (f : pickle_file A) : Py process A :=
  match f with
  | NoFile => raise "No such file or directory"
  | BadFile e => raise e
  | Pickled a => mret a
  end.

Definition load_model : Py process (option Model) :=
  cache_resource load_model_cache set_load_model_cache
    (try_except
       (model_path ← get model_pkl;
        if negb (os_path_exists model_path) then
          os_makedirs ;; mret None
        else
          model ← pickle_load model_path;
          mret (Some model))
       (λ e, st_error ("Error loading model: " +:+ e) ;; mret None)).

Definition load_scaler : Py process Scaler :=
  cache_resource load_scaler_cache set_load_scaler_cache
    (try_except
       (scaler_path ← get scaler_pkl;
        if negb (os_path_exists scaler_path) then
          get StandardScaler
        else
          scaler ← pickle_load scaler_path;
          mret scaler)
       (λ e, st_error ("Error loading scaler: " +:+ e) ;; get StandardScaler)).

Definition predict_severity (features : list Q) : Py process (option Z) :=
  try_except
    (model ← load_model;
     scaler ← load_scaler;
     match model with
     | None =>
         (* [np.array(features).reshape(1, -1)] is built and not used *)
         hour ← getitem features 6;
         distance ← getitem features 2;
         duration ← getitem features 7;
         if py_in hour [7#1; 8#1; 9#1; 16#1; 17#1; 18#1]%Q
            && Qlt_bool distance 10 then
           if Qlt_bool 60 duration then mret (Some 3)
           else if Qlt_bool 30 duration then mret (Some 2)
           else mret (Some 1)
         else if Qlt_bool 30 distance || Qlt_bool duration 15 then
           mret (Some 0)
         else mret (Some 1)
     | Some model =>
         (* [features_array] is the one row [features] *)
         normalized_features ← call (transform scaler features);
         predictions ← call (predict model normalized_features);
         prediction ← getitem predictions 0;
         mret (Some (py_int prediction))
     end)
    (λ e, st_error ("Error making prediction: " +:+ e) ;; mret None).

End model_loader.

(** ** config.py *)

Module config.

(** [SEVERITY_CLASSES]: class number to its display properties. *)
Definition SEVERITY_CLASSES : gmap Z (gmap string string) :=
  {[ 0 := {[ "label" := "Minimal"; "color" := "#4CAF50";
             "description" := "Minimal impact on traffic flow" ]};
     1 := {[ "label" := "Minor"; "color" := "#FFC107";
             "description" := "Minor delays and slowdowns" ]};
     2 := {[ "label" := "Moderate"; "color" := "#FF9800";
             "description" := "Moderate congestion affecting travel time" ]};
     3 := {[ "label" := "Severe"; "color" := "#F44336";
             "description" := "Severe congestion with significant delays" ]} ]}.

(** [PAGES]: page name to the text of its navigation entry, in the order
    written. *)
Definition PAGES : list (string * string) :=
  [("Predict", "🚦 Predict Severity");
   ("History", "📊 Prediction History");
   ("About", "ℹ️ About")].

End config.

(** ** Python values, ordered dictionaries and data frames *)

(** The values a prediction record holds. *)
Inductive value : Type :=
| Num (q : Q)        (* a number of the form *)
| Int (z : Z)        (* the predicted class *)
| Str (s : string).

(** A [dict] keeps its keys in insertion order, and the column order of a
    data frame built from dictionaries follows it. *)
Definition dict : Type := list (string * value).

Definition dict_keys (d : dict) : list string := d.*1.

Fixpoint dict_get (k : string) (d : dict) : option value :=
  match d with
  | [] => None
  | (k', v) :: d' => if decide (k = k') then Some v else dict_get k d'
  end.

(** [d[k] = v]: an existing key keeps its position, a new key goes last. *)
Fixpoint dict_setitem (k : string) (v : value) (d : dict) : dict :=
  match d with
  | [] => [(k, v)]
  | (k', v') :: d' =>
      if decide (k = k') then (k, v) :: d' else (k', v') :: dict_setitem k v d'
  end.

(** A data frame: column labels and, per row, one cell per column; a cell
    the row's dictionary does not define is missing ([None], pandas' NaN). *)
Record DataFrame := {
  columns : list string;
  rows : list (list (option value))
}.

(** Labels of [ks] not yet in [cols], in order, each once. *)
Fixpoint add_columns (cols ks : list string) : list string :=
  match ks with
  | [] => cols
  | k :: ks' =>
      add_columns (if decide (k ∈ cols) then cols else cols ++ [k]) ks'
  end.

(** [pd.DataFrame(records)] for a list of dictionaries: the columns are the
    keys in order of first appearance, one row per dictionary. *)
Definition pd_DataFrame (records : list dict) : DataFrame :=
  let cols := foldl (λ cols r, add_columns cols (dict_keys r)) [] records in
  {| columns := cols;
     rows := (λ r, (λ c, dict_get c r) <$> cols) <$> records |}.

(** [df.empty]: some axis has length zero. *)
Definition df_empty (df : DataFrame) : bool :=
  is_nil (columns df) || is_nil (rows df).

(** [len(df)] *)
Definition df_len (df : DataFrame) : nat := length (rows df).

(** Position of a label among the columns. *)
Fixpoint column_index (c : string) (cols : list string) : option nat :=
  match cols with
  | [] => None
  | c' :: cols' =>
      if decide (c = c') then Some 0%nat else S <$> column_index c cols'
  end.

(** [df[c]]: the column as a series, [KeyError] when there is none. *)
Definition df_getitem {S} (df : DataFrame) (c : string)
    : Py S (list (option value)) :=
  match column_index c (columns df) with
  | Some i => mret ((λ row, mjoin (row !! i)) <$> rows df)
  | None => raise c
  end.

(** The values of a column, for a label that is one. *)
Definition series (df : DataFrame) (c : string) : list (option value) :=
  match column_index c (columns df) with
  | Some i => (λ row, mjoin (row !! i)) <$> rows df
  | None => []
  end.

(** One line of CSV text: the header's labels, or a row's cells in column
    order (a missing cell is written as an empty field). *)
Inductive csv_line : Type :=
| HeaderLine (labels : list string)
| RowLine (cells : list (option value)).

(** [df.to_csv(index=False)]: the header line, then one line per row. *)
Definition to_csv (df : DataFrame) : list csv_line :=
  HeaderLine (columns df) :: (RowLine <$> rows df).

(** A float as pandas reports it: a number, or NaN. *)
Definition float : Type := option Q.
Definition NaN : float := None.

Definition float_abs (x : float) : float := Qabs <$> x.

(** The order [sort_values(ascending=False)] puts its keys in: larger
    numbers first, NaN after every number. *)
Definition sorts_before (x y : float) : bool :=
  match x, y with
  | _, None => true
  | None, Some _ => false
  | Some a, Some b => Qle_bool b a
  end.

(** Rows of [corr_df] compared by their "Correlation" cell. *)
Definition by_correlation_desc (a b : string * float) : Prop :=
  sorts_before a.2 b.2 = true.

Global Instance by_correlation_desc_dec a b :
  Decision (by_correlation_desc a b).
Proof. unfold by_correlation_desc. apply _. Defined.

(** ** [value_counts]

    pandas counts the values of a column in a hash table, where Python
    identifies numbers by their numeric value ([1 == 1.0], equal hashes)
    and strings by their characters. *)
Inductive hash_key : Type :=
| KNum (q : Qc)
| KStr (s : string).

Global Instance hash_key_eq_dec : EqDecision hash_key.
Proof. solve_decision. Defined.

Definition value_key (v : value) : hash_key :=
  match v with
  | Num q => KNum (Q2Qc q)
  | Int z => KNum (Qc_of_Z z)
  | Str s => KStr s
  end.

(** The keys of the cells that are not missing ([dropna=True]). *)
Definition present_keys (col : list (option value)) : list hash_key :=
  omap (fmap value_key) col.

Definition occurrences (k : hash_key) (ks : list hash_key) : nat :=
  length (filter (λ k', k' = k) ks).

(** The distinct elements of a list, in the order of their first
    appearance: the order in which a hash table meets them. *)
Fixpoint uniques {A} `{EqDecision A} (l : list A) : list A :=
  match l with
  | [] => []
  | x :: l' => x :: filter (λ y, y ≠ x) (uniques l')
  end.

(** Rows of a [value_counts] result compared by their count, larger
    first. *)
Definition by_count_desc (a b : hash_key * nat) : Prop := (b.2 ≤ a.2)%nat.

Global Instance by_count_desc_dec a b : Decision (by_count_desc a b).
Proof. unfold by_count_desc. apply _. Defined.

(** A row put in its place among rows sorted by count: ahead of the first
    row whose count is not larger than its own. *)
Fixpoint insert_by_count (r : hash_key * nat)
    (sorted : list (hash_key * nat)) : list (hash_key * nat) :=
  match sorted with
  | [] => [r]
  | r' :: sorted' =>
      if decide (by_count_desc r r') then r :: sorted
      else r' :: insert_by_count r sorted'
  end.

(** Sorting by count, larger first, rows with equal counts staying in the
    order they have. *)
Definition sort_by_count_desc (l : list (hash_key * nat))
    : list (hash_key * nat) :=
  foldr insert_by_count [] l.

(** [col.value_counts()]: each distinct value with the number of its
    occurrences, the most frequent first, and of values with equal counts
    the one that appears first in the column first. *)
Definition value_counts (col : list (option value))
    : list (hash_key * nat) :=
  let ks := present_keys col in
  sort_by_count_desc ((λ k, (k, occurrences k ks)) <$> uniques ks).

(** The integer a number key stands for, if it is one: the key under which
    an [int]-keyed dictionary finds it. *)
Definition key_int (k : hash_key) : option Z :=
  match k with
  | KNum q =>
      if decide (Qden (this q) = 1%positive) then Some (Qnum (this q))
      else None
  | KStr _ => None
  end.

(** ** utils.py *)

Module utils.

(** [st.session_state], as far as this module uses it: the attribute
    [predictions], which is absent until it is first assigned. *)
Record session_state := { predictions : option (list dict) }.

(** ["predictions" not in st.session_state] *)
Definition predictions_missing : Py session_state bool := λ s,
  (inr (match predictions s with None => true | Some _ => false end), s).

(** [st.session_state.predictions = v] *)
Definition set_predictions (v : list dict) : Py session_state unit := λ _,
  (inr (), {| predictions := Some v |}).

(** [st.session_state.predictions]; Streamlit raises [AttributeError] for
    an attribute that was never assigned. *)
Definition get_predictions : Py session_state (list dict) := λ s,
  match predictions s with
  | Some v => (inr v, s)
  | None => (inl "st.session_state has no attribute predictions", s)
  end.

(** [save_prediction(prediction_data)]; [now] is what
    [datetime.now().strftime("%Y-%m-%d %H:%M:%S")] evaluates to. *)
Definition save_prediction (now : string) (prediction_data : dict)
    : Py session_state unit :=
  missing ← predictions_missing;
  (if (missing : bool) then set_predictions [] else pass);;
  let prediction_data := dict_setitem "timestamp" (Str now) prediction_data in
  history ← get_predictions;
  set_predictions (history ++ [prediction_data]);;
  history ← get_predictions;
  if bool_decide (50 < length history)%nat then
    set_predictions (tail history)           (* [pop(0)] *)
  else pass.

Definition get_severity_color (severity_class : Z) : string :=
  default "#CCCCCC"
    (default ∅ (config.SEVERITY_CLASSES !! severity_class) !! "color").

Definition get_severity_label (severity_class : Z) : string :=
  default "Unknown"
    (default ∅ (config.SEVERITY_CLASSES !! severity_class) !! "label").

Definition get_predictions_dataframe : Py session_state (option DataFrame) :=
  history ← get_predictions;
  if is_nil history then mret None
  else mret (Some (pd_DataFrame history)).

Section correlation.

(** [Series.corr]: pandas' Pearson correlation of two columns, NaN when
    it is undefined (a constant column, say).  Its floating-point
    arithmetic is the library's, so it is a parameter here. *)
Variable corr : list (option value) → list (option value) → float.

Definition params : list string :=
  ["longitude"; "latitude"; "distance"; "temperature";
   "humidity"; "pressure"; "hour"; "time_duration"].

(** The loop [for param in params: ...], appending to [corr_data]. *)
Fixpoint correlations {S} (df : DataFrame) (ps : list string)
    (corr_data : list (string * float)) : Py S (list (string * float)) :=
  match ps with
  | [] => mret corr_data
  | param :: ps' =>
      if bool_decide (param ∈ columns df) then
        x ← df_getitem df param;
        y ← df_getitem df "severity_class";
        correlations df ps'
          (corr_data ++ [(param, float_abs (corr x y))])
      else correlations df ps' corr_data
  end.

(** [corr_df.sort_values(by="Correlation", ascending=False)].  A frame
    built from an empty list has no such column ([KeyError]).  Which of
    two equal keys comes first is pandas' business; nothing below
    depends on it. *)
Definition sort_values_desc {S} (corr_data : list (string * float))
    : Py S (list (string * float)) :=
  if is_nil corr_data then raise "Correlation"
  else mret (merge_sort by_correlation_desc corr_data).

(** [plot_parameter_importance(df)].  The figure returned is the bar
    chart of [corr_df]; it is represented by that frame's rows, each a
    parameter and its correlation. *)
Definition plot_parameter_importance {S} (df : option DataFrame)
    : Py S (option (list (string * float))) :=
  match df with
  | None => mret None
  | Some df =>
      if df_empty df || bool_decide (df_len df < 5)%nat then mret None
      else
        corr_data ← correlations df params [];
        corr_df ← sort_values_desc corr_data;
        mret (Some corr_df)
  end.

End correlation.

(** The link [generate_download_link] builds: the CSV text (base64-encoded
    in the [href]), the file name and the link text. *)
Record download_link := {
  link_csv : list csv_line;
  link_filename : string;
  link_text : string
}.

Definition generate_download_link (df : option DataFrame)
    (filename button_text : string) : option download_link :=
  match df with
  | None => None
  | Some df =>
      if df_empty df then None
      else Some {| link_csv := to_csv df;
                   link_filename := filename;
                   link_text := button_text |}
  end.

(** [get_severity_label] and [get_severity_color] applied to a value of a
    column: only an integer can be among the keys of [SEVERITY_CLASSES], any
    other value gets the default. *)
Definition label_of_key (k : hash_key) : string :=
  match key_int k with
  | Some c => get_severity_label c
  | None => "Unknown"
  end.

Definition color_of_key (k : hash_key) : string :=
  match key_int k with
  | Some c => get_severity_color c
  | None => "#CCCCCC"
  end.

(** A row of the frame [severity_counts]. *)
Record severity_count := {
  Severity : hash_key;
  Count : nat;
  Severity_Label : string;
  Color : string
}.

(** [df["severity_class"].value_counts().reset_index()] with its columns
    renamed and the two columns added to it. *)
Definition severity_counts (col : list (option value))
    : list severity_count :=
  (λ row, {| Severity := row.1;
             Count := row.2;
             Severity_Label := label_of_key row.1;
             Color := color_of_key row.1 |})
    <$> value_counts col.

(** The [color_discrete_map] given to [px.bar]: the colours of the four
    labels. *)
Definition color_discrete_map : dict :=
  (λ entry : Z * string, (entry.2, Str (get_severity_color entry.1)))
    <$> [(0, "Minimal"); (1, "Minor"); (2, "Moderate"); (3, "Severe")].

(** A trace of a bar chart: its bars ([x], [y]) and their colour, [None]
    when the chart's colour map has none for the trace and plotly takes one
    from its own sequence. *)
Record trace := {
  trace_name : string;
  trace_color : option value;
  trace_x : list string;
  trace_y : list nat
}.

(** [px.bar(severity_counts, x="Severity Label", y="Count",
    color="Severity Label", color_discrete_map=...)]: one trace per label,
    in the order the labels first appear in the frame, with the rows of
    that label as its bars.  The column [Color] is not read. *)
Definition px_bar (data_frame : list severity_count)
    (color_discrete_map : dict) : list trace :=
  (λ label,
     let group := filter (λ r, Severity_Label r = label) data_frame in
     {| trace_name := label;
        trace_color := dict_get label color_discrete_map;
        trace_x := Severity_Label <$> group;
        trace_y := Count <$> group |})
    <$> uniques (Severity_Label <$> data_frame).

(** [plot_prediction_history(df)].  The figure returned is represented by
    its traces. *)
Definition plot_prediction_history {S} (df : option DataFrame)
    : Py S (option (list trace)) :=
  match df with
  | None => mret None
  | Some df =>
      if df_empty df then mret None
      else
        col ← df_getitem df "severity_class";
        mret (Some (px_bar (severity_counts col) color_discrete_map))
  end.

End utils.

(** ** components.py: the record a successful prediction saves *)

Module components.

(** [severity_info["label"]], where [severity_info] is the class's entry
    of [SEVERITY_CLASSES] or the "Unknown" entry; every entry of the
    table has a label. *)
Definition severity_info_label (severity_class : Z)
    : Py utils.session_state string :=
  match config.SEVERITY_CLASSES !! severity_class with
  | None => mret "Unknown"
  | Some info =>
      match info !! "label" with
      | Some l => mret l
      | None => raise "label"
      end
  end.

(** The dictionary literal [prediction_data] of [show_prediction_form]. *)
Definition prediction_data
    (longitude latitude distance temperature humidity pressure hour
       time_duration : Q) (severity_class : Z) (severity_label : string)
    : dict :=
  [("longitude", Num longitude); ("latitude", Num latitude);
   ("distance", Num distance); ("temperature", Num temperature);
   ("humidity", Num humidity); ("pressure", Num pressure);
   ("hour", Num hour); ("time_duration", Num time_duration);
   ("severity_class", Int severity_class);
   ("severity_label", Str severity_label)].

(** What the "Predict" button does once [predict_severity] has returned
    [severity_class] for the form's eight values: for a class, look up its
    label and save the record; for [None], show an error and save nothing. *)
Definition record_prediction (now : string)
    (longitude latitude distance temperature humidity pressure hour
       time_duration : Q) (severity_class : option Z)
    : Py utils.session_state unit :=
  match severity_class with
  | Some c =>
      label ← severity_info_label c;
      utils.save_prediction now
        (prediction_data longitude latitude distance temperature humidity
           pressure hour time_duration c label)
  | None => pass
  end.

End components.

(** The session state [app.py] starts every session with. *)
Definition initial_session : utils.session_state :=
  {| utils.predictions := Some [] |}.

(** ** The specification's fallback rule policy

    Written from the specification's wording, over propositions, to be
    compared with what [predict_severity] computes. *)

Global Instance Qlt_decision (x y : Q) : Decision (x < y)%Q :=
  match Qlt_le_dec x y with
  | left H => left H
  | right H => right (Qle_not_lt _ _ H)
  end.

Global Instance Qeq_decision (x y : Q) : Decision (x == y)%Q := Qeq_dec x y.

Definition rush_hour (hour : Q) : Prop :=
  (hour == 7 ∨ hour == 8 ∨ hour == 9
   ∨ hour == 16 ∨ hour == 17 ∨ hour == 18)%Q.

Definition fallback_rule_policy (hour distance time_duration : Q) : Z :=
  if decide (rush_hour hour ∧ (distance < 10)%Q) then
    if decide (60 < time_duration)%Q then 3
    else if decide (30 < time_duration)%Q then 2
    else 1
  else if decide ((30 < distance)%Q ∨ (time_duration < 15)%Q) then 0
  else 1.

(** ** Sample environments *)

(** scikit-learn's [StandardScaler()] before any [fit]: [transform] raises
    [NotFittedError]. *)
Definition unfitted_StandardScaler : model_loader.Scaler :=
  {| model_loader.transform := λ _,
       inl "This StandardScaler instance is not fitted yet." |}.

(** A process that has not called either loader yet. *)
Definition fresh_process (m : model_loader.pickle_file model_loader.Model)
    (s : model_loader.pickle_file model_loader.Scaler) : model_loader.process :=
  {| model_loader.model_pkl := m;
     model_loader.scaler_pkl := s;
     model_loader.makedirs_raises := None;
     model_loader.StandardScaler := unfitted_StandardScaler;
     model_loader.load_model_cache := None;
     model_loader.load_scaler_cache := None;
     model_loader.st_errors := [] |}.

(** A classifier that answers [c] for every row, and a scaler that halves
    every feature. *)
Definition constant_model (c : Q) : model_loader.Model :=
  {| model_loader.predict := λ _, inr [c] |}.

Definition halving_scaler : model_loader.Scaler :=
  {| model_loader.transform := λ x, inr ((λ q, q / 2)%Q <$> x) |}.

(** The specification's example observation: rush hour, 5 km, 75 minutes. *)
Definition example_features : list Q :=
  [-739857 # 10000; 407484 # 10000; 5; 25; 65; 1013; 8; 75]%Q.

(** A process whose model file is there but cannot be unpickled. *)
Definition corrupt_model_process : model_loader.process :=
  fresh_process (model_loader.BadFile "invalid load key") model_loader.NoFile.

(** A process with a usable model file, which answers 0, and no scaler
    file. *)
Definition missing_scaler_process : model_loader.process :=
  fresh_process (model_loader.Pickled (constant_model 0))
    model_loader.NoFile.

(** The same process, were [StandardScaler()] to build [sc]. *)
Definition with_StandardScaler (sc : model_loader.Scaler)
    (p : model_loader.process) : model_loader.process :=
  {| model_loader.model_pkl := model_loader.model_pkl p;
     model_loader.scaler_pkl := model_loader.scaler_pkl p;
     model_loader.makedirs_raises := model_loader.makedirs_raises p;
     model_loader.StandardScaler := sc;
     model_loader.load_model_cache := model_loader.load_model_cache p;
     model_loader.load_scaler_cache := model_loader.load_scaler_cache p;
     model_loader.st_errors := model_loader.st_errors p |}.

(** A process with both artifacts in place; the model answers 7. *)
Definition loaded_process : model_loader.process :=
  fresh_process (model_loader.Pickled (constant_model 7))
    (model_loader.Pickled halving_scaler).

(** ** The history store, as the specification names it *)

(** The fields of a prediction record, in the order of the CSV header. *)
Definition RECORD_FIELDS : list string :=
  ["longitude"; "latitude"; "distance"; "temperature"; "humidity";
   "pressure"; "hour"; "time_duration"; "severity_class"; "severity_label";
   "timestamp"].

Definition has_record_fields (r : dict) : Prop :=
  dict_keys r = RECORD_FIELDS.

(** The cells of a record, in the order of its keys. *)
Definition record_cells (r : dict) : list (option value) := Some <$> r.*2.

(** The values of one field over a list of records, missing where a record
    does not define it. *)
Definition field_values (c : string) (records : list dict)
    : list (option value) :=
  (λ r, dict_get c r) <$> records.

(** The absolute value as the specification means it: the number itself,
    or its opposite, whichever is not negative. *)
Definition absolute_value (r : Q) : Q :=
  if Qle_bool 0 r then r else (- r)%Q.

(** What the specification's [featureCorrelations] reports, before it is
    sorted: each feature with the absolute value of its correlation with
    [severity_class], for a correlation function [corr]; an undefined
    correlation stays undefined. *)
Definition feature_correlations
    (corr : list (option value) → list (option value) → float)
    (records : list dict) : list (string * float) :=
  (λ p, (p, absolute_value
              <$> corr (field_values p records)
                       (field_values "severity_class" records)))
    <$> utils.params.

(** A cell [Series.corr] can work with: a number, or a missing value.
    Text in a column makes it raise. *)
Definition numeric_cell (cell : option value) : Prop :=
  match cell with
  | Some (Str _) => False
  | _ => True
  end.

Global Instance numeric_cell_dec cell : Decision (numeric_cell cell).
Proof. destruct cell as [[| |]|]; cbn; apply _. Defined.

(** A record whose eight features and class are numbers, as the form makes
    them. *)
Definition numeric_features (r : dict) : Prop :=
  Forall (λ c, numeric_cell (dict_get c r))
    ("severity_class" :: utils.params).

(** A record as [save_prediction] stores it: [prediction_data] with its
    timestamp set. *)
Definition stamped (call : string * dict) : dict :=
  dict_setitem "timestamp" (Str call.1) call.2.

(** One [save_prediction] per element, in order; each element is the time
    of the call and the dictionary passed. *)
Fixpoint save_predictions (calls : list (string * dict))
    : Py utils.session_state unit :=
  match calls with
  | [] => pass
  | call :: calls' =>
      utils.save_prediction call.1 call.2;; save_predictions calls'
  end.

(** The download link of the history page: [show_prediction_history] takes
    the frame of [get_predictions_dataframe] and, when there is one and it
    is not empty, renders [generate_download_link] of it. *)
Definition history_download_link
    : Py utils.session_state (option utils.download_link) :=
  df ← utils.get_predictions_dataframe;
  match df with
  | Some d =>
      if negb (df_empty d) then
        mret (utils.generate_download_link df
                "traffic_severity_predictions.csv"
                "Download Complete Prediction History")
      else mret None
  | None => mret None
  end.

(** The [n]-th of a series of sample predictions, one a second. *)
Definition sample_call (n : nat) : string * dict :=
  ("2025-01-01 08:00:" +:+ pretty n,
   components.prediction_data (-739857 # 10000) (407484 # 10000) 5 25 65 1013
     8 (inject_Z (Z.of_nat n)) (if decide (60 < n)%nat then 3 else 1)
     (if decide (60 < n)%nat then "Severe" else "Minor")).

Definition sample_calls (n : nat) : list (string * dict) :=
  sample_call <$> seq 0 n.

(** A history of five predictions of the classes 0, 0, 2, 2 and 3, made
    at one place. *)
Definition sample_history : list dict :=
  (λ r, stamped ("2025-01-01 08:00:00", r))
    <$> [components.prediction_data (-739857 # 10000) (407484 # 10000)
           5 26 65 1013 8 32 0 "Minimal";
         components.prediction_data (-739857 # 10000) (407484 # 10000)
           5 27 65 1013 8 32 0 "Minimal";
         components.prediction_data (-739857 # 10000) (407484 # 10000)
           7 25 65 1013 8 30 2 "Moderate";
         components.prediction_data (-739857 # 10000) (407484 # 10000)
           7 25 66 1013 10 30 2 "Moderate";
         components.prediction_data (-739857 # 10000) (407484 # 10000)
           8 25 65 1012 9 33 3 "Severe"].

(** Records of another shape: three of the eight parameters and the
    class. *)
Definition partial_history : list dict :=
  (λ r : Q * Q * Q * Z,
     [("distance", Num r.1.1.1); ("temperature", Num r.1.1.2);
      ("hour", Num r.1.2); ("severity_class", Int r.2)])
    <$> [(5%Q, 26%Q, 8%Q, 0); (5%Q, 27%Q, 8%Q, 0); (7%Q, 25%Q, 8%Q, 2);
         (7%Q, 25%Q, 10%Q, 2); (8%Q, 25%Q, 9%Q, 3)].


(** ** A sample correlation routine

    Pearson's correlation coefficient of two columns over the rows where
    both hold a number; undefined (NaN) when there is no such row or one of
    the columns is constant.  The square root is exact when it is rational
    and taken to six decimal places otherwise. *)
Definition cell_number (cell : option value) : option Q :=
  match cell with
  | Some (Num q) => Some q
  | Some (Int z) => Some (inject_Z z)
  | _ => None
  end.

Definition Qsum (l : list Q) : Q := foldr Qplus 0%Q l.

Definition Qmean (l : list Q) : Q :=
  (Qsum l / inject_Z (Z.of_nat (length l)))%Q.

Definition Qsqrt (q : Q) : Q :=
  let n := Qnum (Qred q) in
  let d := Z.pos (Qden (Qred q)) in
  Qred (Z.sqrt (n * d * 10 ^ 12) # Z.to_pos (d * 10 ^ 6)).

Definition pearson (x y : list (option value)) : float :=
  let pairs :=
    omap (λ xy, a ← cell_number xy.1; b ← cell_number xy.2; Some (a, b))
      (zip x y) in
  let dx := (λ a, a - Qmean pairs.*1)%Q <$> pairs.*1 in
  let dy := (λ b, b - Qmean pairs.*2)%Q <$> pairs.*2 in
  let root :=
    Qsqrt (Qsum ((λ a, a * a)%Q <$> dx) * Qsum ((λ b, b * b)%Q <$> dy)) in
  if Qeq_bool root 0 then NaN
  else Some (Qred (Qsum (zip_with Qmult dx dy) / root)).

(** ** The callers in components.py, in the state of the app *)

Module app.

(** Everything a run of the app touches: the loader's process, the
    session's history, and the session's [current_page] (absent until it is
    first assigned). *)
Record state := {
  proc : model_loader.process;
  session : utils.session_state;
  current_page : option string
}.

Definition in_process {A} (c : Py model_loader.process A) : Py state A :=
  λ a, match c (proc a) with
       | (r, p) => (r, {| proc := p; session := session a;
                          current_page := current_page a |})
       end.

Definition in_session {A} (c : Py utils.session_state A) : Py state A :=
  λ a, match c (session a) with
       | (r, s) => (r, {| proc := proc a; session := s;
                          current_page := current_page a |})
       end.

(** [st.session_state.current_page = key] *)
Definition set_current_page (key : string) : Py state unit := λ a,
  (inr (), {| proc := proc a; session := session a;
              current_page := Some key |}).

(** [st.session_state.current_page] *)
Definition get_current_page : Py state string := λ a,
  match current_page a with
  | Some key => (inr key, a)
  | None => (inl "st.session_state has no attribute current_page", a)
  end.

(** The loop of [show_sidebar]:
    [for key, value in PAGES.items(): if value == selected_page: ...; break] *)
Fixpoint select_page (items : list (string * string))
    (selected_page : string) : Py state unit :=
  match items with
  | [] => pass
  | (key, value) :: items' =>
      if decide (value = selected_page) then set_current_page key
      else select_page items' selected_page
  end.

(** [show_sidebar()]; [selected_page] is what [st.radio] returns, one of
    [list(PAGES.values())]. *)
Definition show_sidebar (selected_page : string) : Py state string :=
  select_page config.PAGES selected_page;;
  get_current_page.

(** The "Predict Traffic Severity" button of [show_prediction_form], for
    the eight values of the form: predict; for a class, show it and save the
    record; for [None], show an error. *)
Definition predict_clicked (now : string)
    (longitude latitude distance temperature humidity pressure hour
       time_duration : Q) : Py state unit :=
  let features :=
    [longitude; latitude; distance; temperature; humidity; pressure; hour;
     time_duration] in
  severity_class ← in_process (model_loader.predict_severity features);
  match severity_class with
  | Some _ =>
      in_session
        (components.record_prediction now longitude latitude distance
           temperature humidity pressure hour time_duration severity_class)
  | None =>
      in_process
        (model_loader.st_error
           "Failed to make prediction. Please check the input parameters.")
  end.

End app.

(** The state of a session that has just started, in a process with the
    given files. *)
Definition initial_state
    (m : model_loader.pickle_file model_loader.Model)
    (s : model_loader.pickle_file model_loader.Scaler) : app.state :=
  {| app.proc := fresh_process m s;
     app.session := {| utils.predictions := None |};
     app.current_page := None |}.

(** What one click of the button submits: the time, and the eight values
    of the form. *)
Record submission := {
  at_time : string;
  longitude : Q;
  latitude : Q;
  distance : Q;
  temperature : Q;
  humidity : Q;
  pressure : Q;
  hour : Q;
  time_duration : Q
}.

Definition click (c : submission) : Py app.state unit :=
  app.predict_clicked (at_time c) (longitude c) (latitude c) (distance c)
    (temperature c) (humidity c) (pressure c) (hour c) (time_duration c).

(** One click after the other. *)
Fixpoint clicks (cs : list submission) : Py app.state unit :=
  match cs with
  | [] => pass
  | c :: cs' => click c;; clicks cs'
  end.

(** The specification's example observation, submitted at [now]. *)
Definition example_submission (now : string) : submission :=
  {| at_time := now;
     longitude := -739857 # 10000; latitude := 407484 # 10000;
     distance := 5; temperature := 25; humidity := 65; pressure := 1013;
     hour := 8; time_duration := 75 |}.

(** The process [p] after the two files have changed to [m] and [s]. *)
Definition with_files (m : model_loader.pickle_file model_loader.Model)
    (s : model_loader.pickle_file model_loader.Scaler)
    (p : model_loader.process) : model_loader.process :=
  {| model_loader.model_pkl := m;
     model_loader.scaler_pkl := s;
     model_loader.makedirs_raises := model_loader.makedirs_raises p;
     model_loader.StandardScaler := model_loader.StandardScaler p;
     model_loader.load_model_cache := model_loader.load_model_cache p;
     model_loader.load_scaler_cache := model_loader.load_scaler_cache p;
     model_loader.st_errors := model_loader.st_errors p |}.

(** The process [p] after [st.error] has shown [msgs]. *)
Definition shown (msgs : list string) (p : model_loader.process)
    : model_loader.process :=
  {| model_loader.model_pkl := model_loader.model_pkl p;
     model_loader.scaler_pkl := model_loader.scaler_pkl p;
     model_loader.makedirs_raises := model_loader.makedirs_raises p;
     model_loader.StandardScaler := model_loader.StandardScaler p;
     model_loader.load_model_cache := model_loader.load_model_cache p;
     model_loader.load_scaler_cache := model_loader.load_scaler_cache p;
     model_loader.st_errors := model_loader.st_errors p ++ msgs |}.

(** * Properties *)

(** ** Numbers *)

Lemma Qlt_bool_iff (x y : Q) : Qlt_bool x y = true ↔ (x < y)%Q.
Proof.
  unfold Qlt_bool. rewrite negb_true_iff.
  destruct (Qle_bool y x) eqn:E.
  - apply Qle_bool_iff in E. split; [discriminate |].
    intros H. exfalso. exact (Qlt_not_le _ _ H E).
  - split; [intros _ | reflexivity].
    apply Qnot_le_lt. intros H. apply Qle_bool_iff in H. congruence.
Qed.

Lemma Qlt_bool_decide (x y : Q) : Qlt_bool x y = bool_decide (x < y)%Q.
Proof.
  destruct (Qlt_bool x y) eqn:E; symmetry.
  - apply bool_decide_eq_true, Qlt_bool_iff, E.
  - apply bool_decide_eq_false. intros H. apply Qlt_bool_iff in H. congruence.
Qed.

Lemma Qeq_bool_decide (x y : Q) : Qeq_bool x y = bool_decide (x == y)%Q.
Proof.
  destruct (Qeq_bool x y) eqn:E; symmetry.
  - apply bool_decide_eq_true, Qeq_bool_iff, E.
  - apply bool_decide_eq_false, Qeq_bool_neq, E.
Qed.

Lemma py_in_rush_hour (hour : Q) :
  py_in hour [7#1; 8#1; 9#1; 16#1; 17#1; 18#1]%Q = bool_decide (rush_hour hour).
Proof.
  unfold py_in, rush_hour. simpl. rewrite !Qeq_bool_decide.
  repeat case_bool_decide; simpl; try reflexivity; exfalso; tauto.
Qed.

Global Instance fallback_rule_policy_proper :
  Proper (Qeq ==> Qeq ==> Qeq ==> eq) fallback_rule_policy.
Proof.
  intros h h' Hh d d' Hd t t' Ht. unfold fallback_rule_policy, rush_hour.
  repeat case_decide; try reflexivity; exfalso;
    rewrite ?Hh, ?Hd, ?Ht in *; tauto.
Qed.

Lemma fallback_rule_policy_range (hour distance time_duration : Q) :
  0 ≤ fallback_rule_policy hour distance time_duration ≤ 3.
Proof. unfold fallback_rule_policy. repeat case_decide; lia. Qed.

(** ** The loaders *)

Section loaders.
Import model_loader.

(** [load_model] never raises, and leaves alone what [load_scaler] reads. *)
Lemma load_model_returns (p : process) :
  ∃ m p', load_model p = (inr m, p')
    ∧ scaler_pkl p' = scaler_pkl p
    ∧ StandardScaler p' = StandardScaler p
    ∧ load_scaler_cache p' = load_scaler_cache p.
Proof.
  destruct p as [mp sp mk ss [v|] sc errs].
  - by eexists _, _.
  - destruct mp as [|e|m]; [destruct mk as [e|] | |]; by eexists _, _.
Qed.

(** What [load_scaler] returns depends on the scaler's file, on what
    [StandardScaler()] builds and on its own cache only. *)
Lemma load_scaler_frame (p p' : process) :
  scaler_pkl p' = scaler_pkl p →
  StandardScaler p' = StandardScaler p →
  load_scaler_cache p' = load_scaler_cache p →
  (load_scaler p').1 = (load_scaler p).1.
Proof.
  destruct p as [mp sp mk ss mc sc errs].
  destruct p' as [mp' sp' mk' ss' mc' sc' errs'].
  simpl. intros -> -> ->.
  destruct sc as [s|]; [done |]. by destruct sp.
Qed.

Lemma load_scaler_returns (p : process) :
  ∃ s p', load_scaler p = (inr s, p').
Proof.
  destruct p as [mp sp mk ss mc [s|] errs]; [by eexists _, _ |].
  destruct sp; by eexists _, _.
Qed.

(** A model file that is missing or cannot be unpickled gives [None] on
    the first load; the second case also reports the error. *)
Lemma load_model_no_file (p : process) :
  load_model_cache p = None → model_pkl p = NoFile →
  (load_model p).1 = inr None.
Proof.
  destruct p as [mp sp mk ss mc sc errs]. simpl. intros -> ->.
  by destruct mk.
Qed.

Lemma load_model_bad_file (p : process) (e : exn) :
  load_model_cache p = None → model_pkl p = BadFile e →
  (load_model p).1 = inr None
  ∧ st_errors (load_model p).2 = st_errors p ++ ["Error loading model: " +:+ e].
Proof.
  destruct p as [mp sp mk ss mc sc errs]. simpl. by intros -> ->.
Qed.

(** A scaler file that is missing or cannot be unpickled gives the scaler
    [StandardScaler()] builds. *)
Lemma load_scaler_no_file (p : process) :
  load_scaler_cache p = None → scaler_pkl p = NoFile →
  (load_scaler p).1 = inr (StandardScaler p).
Proof.
  destruct p as [mp sp mk ss mc sc errs]. simpl. by intros -> ->.
Qed.

Lemma load_scaler_bad_file (p : process) (e : exn) :
  load_scaler_cache p = None → scaler_pkl p = BadFile e →
  (load_scaler p).1 = inr (StandardScaler p).
Proof.
  destruct p as [mp sp mk ss mc sc errs]. simpl. by intros -> ->.
Qed.

(** The second call of a loader returns what the first did. *)
Lemma load_model_cached (p : process) :
  (load_model (load_model p).2).1 = (load_model p).1.
Proof.
  destruct p as [mp sp mk ss [v|] sc errs]; [done |].
  destruct mp as [|e|m]; [destruct mk as [e|] | |]; done.
Qed.

(** ** [predict_severity]: the two branches *)

Lemma predict_severity_rule_run (p : process)
    (longitude latitude distance temperature humidity pressure hour
       time_duration : Q) :
  (load_model p).1 = inr None →
  predict_severity
    [longitude; latitude; distance; temperature; humidity; pressure;
     hour; time_duration] p
  = (inr (Some (fallback_rule_policy hour distance time_duration)),
     (load_scaler (load_model p).2).2).
Proof.
  intros Hm.
  destruct (load_model_returns p) as (m & p1 & E1 & _).
  rewrite E1 in Hm |- *. simpl in Hm. injection Hm as ->.
  destruct (load_scaler_returns p1) as (s & p2 & E2).
  unfold predict_severity, try_except, mbind, Py_bind.
  rewrite E1. cbn [snd]. rewrite E2.
  cbn [getitem lookup list_lookup mret Py_ret snd].
  rewrite py_in_rush_hour, !Qlt_bool_decide.
  unfold fallback_rule_policy.
  repeat case_bool_decide; repeat case_decide; simpl;
    try reflexivity; exfalso; tauto.
Qed.

Lemma predict_severity_rule (p : process)
    (longitude latitude distance temperature humidity pressure hour
       time_duration : Q) :
  (load_model p).1 = inr None →
  (predict_severity
     [longitude; latitude; distance; temperature; humidity; pressure;
      hour; time_duration] p).1
  = inr (Some (fallback_rule_policy hour distance time_duration)).
Proof. intros Hm. by rewrite predict_severity_rule_run. Qed.

(** The loaders only ever add to the messages shown. *)
Lemma load_scaler_errors (p : process) :
  ∃ more, st_errors (load_scaler p).2 = st_errors p ++ more.
Proof.
  destruct p as [mp sp mk ss mc [s|] errs]; [| destruct sp as [|e|s]];
    cbn; eauto using app_nil_r.
Qed.

(** Fewer than eight features: indexing raises, the handler reports it
    and the call returns [None]. *)
Lemma predict_severity_short (p : process) (features : list Q) :
  (load_model p).1 = inr None → (length features < 8)%nat →
  (predict_severity features p).1 = inr None.
Proof.
  intros Hm Hlen.
  destruct (load_model_returns p) as (m & p1 & E1 & _).
  rewrite E1 in Hm. simpl in Hm. injection Hm as ->.
  destruct (load_scaler_returns p1) as (s & p2 & E2).
  unfold predict_severity, try_except, mbind, Py_bind.
  rewrite E1, E2.
  do 8 (destruct features as [|? features]; [reflexivity |]).
  simpl in Hlen. lia.
Qed.

Lemma predict_severity_model (p : process) (features : list Q)
    (m : Model) (sc : Scaler) :
  (load_model p).1 = inr (Some m) →
  (load_scaler p).1 = inr sc →
  (predict_severity features p).1
  = inr (x ← returned (transform sc features);
         ys ← returned (predict m x);
         y ← ys !! 0%nat;
         Some (py_int y)).
Proof.
  intros Hm Hs.
  destruct (load_model_returns p) as (m' & p1 & E1 & F1 & F2 & F3).
  rewrite E1 in Hm. simpl in Hm. injection Hm as ->.
  rewrite <- (load_scaler_frame p p1 F1 F2 F3) in Hs.
  destruct (load_scaler_returns p1) as (s & p2 & E2).
  rewrite E2 in Hs. simpl in Hs. injection Hs as ->.
  unfold predict_severity, try_except, mbind at 1 2, Py_bind.
  rewrite E1, E2.
  cbv [mbind Py_bind mret Py_ret call raise getitem returned option_bind].
  destruct (transform sc features) as [e|x]; [reflexivity |].
  destruct (predict m x) as [e|ys]; [reflexivity |].
  destruct ys; reflexivity.
Qed.

End loaders.

(** ** The prediction engine *)

Section prediction_engine.
Import model_loader.

Example py_int_truncates :
  py_int (7 # 2) = 3 ∧ py_int (-7 # 2) = -3 ∧ py_int 7 = 7.
Proof. done. Qed.

(** C1.  With no model loaded, [predict_severity] on an eight-field
    feature vector returns the class of the fallback rule policy, taken in
    its order of precedence: in a rush hour (7, 8, 9, 16, 17, 18) and
    under 10 km, 3 for more than 60 minutes, else 2 for more than 30,
    else 1; otherwise 0 when the distance is over 30 km or the duration
    under 15 minutes; otherwise 1. *)
Theorem predict_severity_fallback_rule_policy (p : process)
    (longitude latitude distance temperature humidity pressure hour
       time_duration : Q) :
  (load_model p).1 = inr None →
  let result :=
    (predict_severity
       [longitude; latitude; distance; temperature; humidity; pressure;
        hour; time_duration] p).1 in
  result = inr (Some (fallback_rule_policy hour distance time_duration))
  ∧ (rush_hour hour ∧ (distance < 10)%Q → (60 < time_duration)%Q →
     result = inr (Some 3))
  ∧ (rush_hour hour ∧ (distance < 10)%Q →
     (30 < time_duration)%Q ∧ (time_duration <= 60)%Q →
     result = inr (Some 2))
  ∧ (rush_hour hour ∧ (distance < 10)%Q → (time_duration <= 30)%Q →
     result = inr (Some 1))
  ∧ (¬ (rush_hour hour ∧ (distance < 10)%Q) →
     (30 < distance)%Q ∨ (time_duration < 15)%Q →
     result = inr (Some 0))
  ∧ (¬ (rush_hour hour ∧ (distance < 10)%Q) →
     ¬ ((30 < distance)%Q ∨ (time_duration < 15)%Q) →
     result = inr (Some 1)).
Proof.
  intros Hm result. subst result. rewrite predict_severity_rule by done.
  unfold fallback_rule_policy.
  split; [done |].
  repeat split; intros H1 H2; repeat case_decide; try done; exfalso;
    try tauto; destruct_and?; lra.
Qed.

Lemma predict_severity_fallback_rule_policy_example :
  (predict_severity example_features (fresh_process NoFile NoFile)).1
  = inr (Some 3).
Proof.
  refine (proj1 (proj2
    (predict_severity_fallback_rule_policy (fresh_process NoFile NoFile)
       (-739857 # 10000) (407484 # 10000) 5 25 65 1013 8 75 _)) _ _).
  - reflexivity.
  - split; [right; left; reflexivity | reflexivity].
  - reflexivity.
Defined.

(** C9.  The fallback rule policy is total and deterministic, and reads
    the hour, the distance and the duration only: two feature vectors
    that agree on these three get the same class, whatever their other
    five fields are (and whatever else the two processes hold). *)
Theorem predict_severity_fallback_noninterference (p p' : process)
    (longitude latitude distance temperature humidity pressure hour
       time_duration : Q)
    (longitude' latitude' distance' temperature' humidity' pressure' hour'
       time_duration' : Q) :
  (load_model p).1 = inr None →
  (load_model p').1 = inr None →
  (hour == hour')%Q → (distance == distance')%Q →
  (time_duration == time_duration')%Q →
  ∃ c : Z,
    0 ≤ c ≤ 3
    ∧ (predict_severity
         [longitude; latitude; distance; temperature; humidity; pressure;
          hour; time_duration] p).1 = inr (Some c)
    ∧ (predict_severity
         [longitude'; latitude'; distance'; temperature'; humidity';
          pressure'; hour'; time_duration'] p').1 = inr (Some c).
Proof.
  intros Hm Hm' Hh Hd Ht.
  exists (fallback_rule_policy hour distance time_duration).
  split; [apply fallback_rule_policy_range |].
  split; [by apply predict_severity_rule |].
  rewrite predict_severity_rule by done.
  by rewrite Hh, Hd, Ht.
Qed.

Lemma predict_severity_fallback_noninterference_example :
  ∃ c : Z,
    0 ≤ c ≤ 3
    ∧ (predict_severity example_features
         (fresh_process NoFile NoFile)).1 = inr (Some c)
    ∧ (predict_severity [0; 0; 10 # 2; -30; 100; 950; 16 # 2; 75]%Q
         (fresh_process (BadFile "invalid load key") NoFile)).1
      = inr (Some c).
Proof.
  apply (predict_severity_fallback_noninterference
           (fresh_process NoFile NoFile)
           (fresh_process (BadFile "invalid load key") NoFile));
    reflexivity.
Defined.

(** C2 as stated fails: with a model file that cannot be unpickled, the
    specification's example observation is not answered by a failure
    ([None]) but by class 3, the class of the rule policy. *)
Lemma corrupt_model_not_a_failure :
  model_pkl corrupt_model_process = BadFile "invalid load key"
  ∧ (predict_severity example_features corrupt_model_process).1
    ≠ inr None
  ∧ (predict_severity example_features corrupt_model_process).1
    = inr (Some (fallback_rule_policy 8 5 75)).
Proof. done. Qed.

(** C2, amended.  When the model file exists but unpickling it raises (on
    the process's first load), [load_model] reports "Error loading model"
    through [st.error] and yields [None], as for a missing file, and
    [predict_severity] answers an eight-field feature vector with the
    class of the fallback rule policy, not with a failure. *)
Theorem predict_severity_corrupt_model (p : process) (e : exn)
    (longitude latitude distance temperature humidity pressure hour
       time_duration : Q) :
  load_model_cache p = None →
  model_pkl p = BadFile e →
  let run :=
    predict_severity
      [longitude; latitude; distance; temperature; humidity; pressure;
       hour; time_duration] p in
  (load_model p).1 = inr None
  ∧ run.1 = inr (Some (fallback_rule_policy hour distance time_duration))
  ∧ run.1 ≠ inr None
  ∧ "Error loading model: " +:+ e ∈ st_errors run.2.
Proof.
  intros Hc Hf run. subst run.
  destruct (load_model_bad_file p e Hc Hf) as [Hm Herr].
  rewrite predict_severity_rule_run by done.
  split_and!; [done | done | done |]. cbn [snd].
  destruct (load_scaler_errors (load_model p).2) as [more ->].
  rewrite Herr. set_solver.
Qed.

Lemma predict_severity_corrupt_model_example :
  (predict_severity example_features corrupt_model_process).1
  = inr (Some 3).
Proof.
  refine (proj1 (proj2
    (predict_severity_corrupt_model corrupt_model_process
       "invalid load key"
       (-739857 # 10000) (407484 # 10000) 5 25 65 1013 8 75 _ _)));
    reflexivity.
Defined.

(** C4 as stated fails: with the classifier present and the scaler file
    missing, the example observation is answered by a failure ([None]),
    not by class 3 of the fallback rule policy; and were the scaler that
    [StandardScaler()] builds usable, the answer would be the model's 0,
    still not the policy's 3. *)
Lemma missing_scaler_not_fallback :
  (load_model missing_scaler_process).1 = inr (Some (constant_model 0))
  ∧ scaler_pkl missing_scaler_process = NoFile
  ∧ fallback_rule_policy 8 5 75 = 3
  ∧ (predict_severity example_features missing_scaler_process).1
    = inr None
  ∧ (predict_severity example_features
       (with_StandardScaler halving_scaler missing_scaler_process)).1
    = inr (Some 0).
Proof. done. Qed.

(** C4, amended.  A model file that is missing or cannot be unpickled
    makes [load_model] yield [None], and [predict_severity] then applies
    the fallback rule policy instead of failing.  A scaler file that is
    missing or cannot be unpickled does not: [load_scaler] yields the
    scaler [StandardScaler()] builds, and with a model loaded
    [predict_severity] returns the integer of the model's prediction on
    that scaler's transform of the features, or [None] when one of these
    steps raises; the rule policy is not consulted. *)
Theorem predict_severity_missing_artifacts (p : process)
    (longitude latitude distance temperature humidity pressure hour
       time_duration : Q) :
  let features :=
    [longitude; latitude; distance; temperature; humidity; pressure;
     hour; time_duration] in
  (load_model_cache p = None →
   model_pkl p = NoFile ∨ (∃ e, model_pkl p = BadFile e) →
   (load_model p).1 = inr None
   ∧ (predict_severity features p).1
     = inr (Some (fallback_rule_policy hour distance time_duration)))
  ∧ (∀ m : Model,
       (load_model p).1 = inr (Some m) →
       load_scaler_cache p = None →
       scaler_pkl p = NoFile ∨ (∃ e, scaler_pkl p = BadFile e) →
       (load_scaler p).1 = inr (StandardScaler p)
       ∧ (predict_severity features p).1
         = inr (x ← returned (transform (StandardScaler p) features);
                ys ← returned (predict m x);
                y ← ys !! 0%nat;
                Some (py_int y))
       ∧ (returned (transform (StandardScaler p) features) = None →
          (predict_severity features p).1 = inr None)).
Proof.
  intros features. split.
  - intros Hc Hf.
    assert ((load_model p).1 = inr None) as Hm.
    { destruct Hf as [Hf | [e Hf]].
      - by apply load_model_no_file.
      - by apply (load_model_bad_file p e). }
    split; [done |]. by apply predict_severity_rule.
  - intros m Hm Hc Hf.
    assert ((load_scaler p).1 = inr (StandardScaler p)) as Hs.
    { destruct Hf as [Hf | [e Hf]].
      - by apply load_scaler_no_file.
      - by apply (load_scaler_bad_file p e). }
    split; [done |].
    rewrite (predict_severity_model p features m _ Hm Hs).
    split; [done |]. by intros ->.
Qed.

Lemma predict_severity_missing_artifacts_example :
  (predict_severity example_features missing_scaler_process).1 = inr None.
Proof.
  refine (proj2 (proj2 (proj2
    (predict_severity_missing_artifacts missing_scaler_process
       (-739857 # 10000) (407484 # 10000) 5 25 65 1013 8 75)
    (constant_model 0) _ _ _)) _); try reflexivity.
  by left.
Defined.

(** C8.  With a model and a scaler loaded, [predict_severity] returns
    [int(model.predict(scaler.transform(features))[0])] as it is: the
    value is not checked against the classes 0 to 3. *)
Theorem predict_severity_loaded_model (p : process) (features : list Q)
    (m : Model) (sc : Scaler) (x ys : list Q) (y : Q) :
  (load_model p).1 = inr (Some m) →
  (load_scaler p).1 = inr sc →
  transform sc features = inr x →
  predict m x = inr ys →
  ys !! 0%nat = Some y →
  (predict_severity features p).1 = inr (Some (py_int y)).
Proof.
  intros Hm Hs Ht Hp Hy.
  rewrite (predict_severity_model p features m sc Hm Hs), Ht. simpl.
  rewrite Hp. simpl. by rewrite Hy.
Qed.

Lemma predict_severity_loaded_model_example :
  (predict_severity example_features loaded_process).1 = inr (Some 7)
  ∧ ¬ (0 ≤ 7 ≤ 3).
Proof.
  split; [| lia].
  apply (predict_severity_loaded_model loaded_process example_features
           (constant_model 7) halving_scaler
           ((λ q, q / 2)%Q <$> example_features) [7%Q] 7%Q);
    reflexivity.
Defined.

End prediction_engine.

(** ** The history store *)

Section history_store.
Import utils.

(** One [save_prediction]: the stamped record goes last, and the oldest
    record goes when that makes more than fifty. *)
Lemma save_prediction_run (s : session_state) (now : string) (r : dict) :
  let history := default [] (predictions s) ++ [stamped (now, r)] in
  save_prediction now r s
  = (inr (), {| predictions :=
                  Some (if decide (50 < length history)%nat
                        then tail history else history) |}).
Proof.
  unfold stamped. cbn [fst snd].
  set (x := dict_setitem "timestamp" (Str now) r).
  unfold save_prediction, mbind, Py_bind, predictions_missing,
    get_predictions, set_predictions, pass, mret, Py_ret.
  fold x.
  destruct s as [[l|]]; cbn -[bool_decide length tail "++"];
    rewrite bool_decide_decide; by case_decide.
Qed.

Lemma save_predictions_run (calls : list (string * dict)) (l : list dict) :
  (length l ≤ 50)%nat →
  save_predictions calls {| predictions := Some l |}
  = (inr (), {| predictions :=
                  Some (drop (length l + length calls - 50)
                          (l ++ (stamped <$> calls))) |}).
Proof.
  revert l. induction calls as [|[now r] calls IH]; intros l Hl.
  - cbn. replace (length l + 0 - 50)%nat with 0%nat by lia.
    by rewrite app_nil_r.
  - cbn [save_predictions fst snd].
    unfold mbind, Py_bind. rewrite save_prediction_run.
    cbn [predictions default from_option id].
    case_decide as Hfull; rewrite length_app in Hfull; cbn in Hfull.
    + destruct l as [|x l]; [cbn in Hfull; lia |].
      cbn [tail app]. rewrite IH.
      2:{ rewrite length_app. cbn in *. lia. }
      rewrite length_app. cbn [length fmap list_fmap].
      replace (S (length l) + S (length calls) - 50)%nat
        with (S (length l + 1 + length calls - 50)) by (cbn in *; lia).
      cbn [drop app]. by rewrite <- app_assoc.
    + rewrite IH by (rewrite length_app; cbn; lia).
      rewrite length_app, <- app_assoc. cbn.
      by replace (length l + 1 + length calls - 50)%nat
        with (length l + S (length calls) - 50)%nat by lia.
Qed.

(** C3.  The history never holds more than fifty records and evicts the
    oldest first: from a history of at most fifty, [save_prediction]
    leaves at most fifty, namely the old records in their order followed
    by the new one, less the oldest when that would make fifty-one; and
    any number of saves into the empty history leaves the last fifty
    saved (all of them, when fewer), in the order saved, so that
    fifty-one saves leave exactly the second to the fifty-first. *)
Theorem save_prediction_bounded_fifo :
  (∀ (s : session_state) (now : string) (r : dict),
     let old := default [] (predictions s) in
     (length old ≤ 50)%nat →
     ∃ new : list dict,
       save_prediction now r s = (inr (), {| predictions := Some new |})
       ∧ (length new ≤ 50)%nat
       ∧ ((length old < 50)%nat → new = old ++ [stamped (now, r)])
       ∧ ((length old = 50)%nat → new = tail old ++ [stamped (now, r)]))
  ∧ (∀ calls : list (string * dict),
       save_predictions calls initial_session
       = (inr (), {| predictions :=
                       Some (drop (length calls - 50) (stamped <$> calls)) |}))
  ∧ (∀ (first : string * dict) (rest : list (string * dict)),
       length rest = 50%nat →
       save_predictions (first :: rest) initial_session
       = (inr (), {| predictions := Some (stamped <$> rest) |})).
Proof.
  split_and!.
  - intros s now r old Hold. eexists. split; [apply save_prediction_run |].
    fold old. rewrite length_app. cbn [length].
    case_decide as Hfull.
    + assert (length old = 50%nat) as H50 by lia.
      destruct old as [|x old']; [done |]. cbn in *.
      rewrite length_app. cbn. split_and!; [lia | lia | done].
    + rewrite length_app. cbn. split_and!; [lia | done | lia].
  - intros calls. unfold initial_session.
    by rewrite save_predictions_run by (cbn; lia).
  - intros first rest Hrest. unfold initial_session.
    rewrite save_predictions_run by (cbn; lia).
    cbn [length app fmap list_fmap]. rewrite Hrest. done.
Qed.

Lemma save_prediction_bounded_fifo_example :
  (save_predictions (sample_calls 51) initial_session).2
  = {| predictions := Some (stamped <$> drop 1 (sample_calls 51)) |}
  ∧ length (stamped <$> drop 1 (sample_calls 51)) = 50%nat.
Proof.
  split; [| reflexivity].
  rewrite (proj1 (proj2 save_prediction_bounded_fifo)). reflexivity.
Defined.

End history_store.

(** ** Data frames of prediction records *)

Section record_frames.
Import utils.

Lemma stamped_prediction_data_fields (now : string)
    (longitude latitude distance temperature humidity pressure hour
       time_duration : Q) (severity_class : Z) (severity_label : string) :
  has_record_fields
    (stamped (now,
              components.prediction_data longitude latitude distance
                temperature humidity pressure hour time_duration
                severity_class severity_label)).
Proof. reflexivity. Qed.

Lemma record_row (r : dict) :
  has_record_fields r →
  (λ c, dict_get c r) <$> RECORD_FIELDS = record_cells r.
Proof.
  unfold has_record_fields, dict_keys, RECORD_FIELDS. intros H.
  do 11 (destruct r as [|[? ?] r]; [discriminate |]).
  destruct r; [| discriminate].
  cbn in H. simplify_eq. reflexivity.
Qed.

Lemma record_columns_from (records : list dict) :
  Forall has_record_fields records →
  foldl (λ cols r, add_columns cols (dict_keys r)) RECORD_FIELDS records
  = RECORD_FIELDS.
Proof.
  induction 1 as [|r records Hr _ IH]; [done |].
  cbn [foldl]. rewrite Hr. exact IH.
Qed.

(** The frame of a non-empty list of prediction records: the record
    fields as columns, and each record's cells as a row. *)
Lemma pd_DataFrame_records (records : list dict) :
  Forall has_record_fields records → records ≠ [] →
  pd_DataFrame records
  = {| columns := RECORD_FIELDS; rows := record_cells <$> records |}.
Proof.
  intros Hall Hne. unfold pd_DataFrame.
  assert (foldl (λ cols r, add_columns cols (dict_keys r)) [] records
          = RECORD_FIELDS) as ->.
  { destruct Hall as [|r records Hr Hall]; [done |].
    cbn [foldl]. rewrite Hr.
    change (add_columns [] RECORD_FIELDS) with RECORD_FIELDS.
    by apply record_columns_from. }
  f_equal. apply Forall_fmap_ext.
  eapply Forall_impl; [exact Hall |]. apply record_row.
Qed.

(** Saving a prediction made by the form keeps every stored record a
    full prediction record. *)
Lemma record_prediction_fields (now : string)
    (longitude latitude distance temperature humidity pressure hour
       time_duration : Q) (c : option Z) (s : session_state) :
  Forall has_record_fields (default [] (predictions s)) →
  Forall has_record_fields
    (default []
       (predictions
          (components.record_prediction now longitude latitude distance
             temperature humidity pressure hour time_duration c s).2)).
Proof.
  intros Hall. unfold components.record_prediction.
  destruct c as [c|]; [| done].
  unfold components.severity_info_label, mbind, Py_bind.
  assert (∀ label,
    Forall has_record_fields
      (default [] (predictions
         (save_prediction now
            (components.prediction_data longitude latitude distance
               temperature humidity pressure hour time_duration c label)
            s).2))) as Hsave.
  { intros label. rewrite save_prediction_run. cbn [snd predictions default].
    assert (Forall has_record_fields
              (default [] (predictions s)
               ++ [stamped (now,
                            components.prediction_data longitude latitude
                              distance temperature humidity pressure hour
                              time_duration c label)])) as Hnew.
    { apply Forall_app. split; [done |].
      apply Forall_singleton, stamped_prediction_data_fields. }
    case_decide; [| done].
    destruct (default [] (predictions s) ++ _); [done |].
    by apply Forall_cons_1 in Hnew as [_ ?]. }
  destruct (config.SEVERITY_CLASSES !! c) as [info|]; [| apply Hsave].
  destruct (info !! "label"); [apply Hsave | done].
Qed.

Lemma get_predictions_dataframe_run (l : list dict) :
  get_predictions_dataframe {| predictions := Some l |}
  = (inr (if is_nil l then None else Some (pd_DataFrame l)),
     {| predictions := Some l |}).
Proof. by destruct l. Qed.

(** C5 as stated fails: on the empty history [get_predictions_dataframe]
    returns [None], the value its callers read as "no history", and not
    an empty frame. *)
Lemma empty_history_is_None :
  (get_predictions_dataframe initial_session).1 = inr None
  ∧ (get_predictions_dataframe initial_session).1
    ≠ inr (Some (pd_DataFrame [])).
Proof. done. Qed.

(** C5, amended.  [get_predictions_dataframe] never changes the session
    state.  On an empty history it returns [None] (no frame at all); on a
    history that holds records it returns their frame, one row per record
    in the order stored. *)
Theorem get_predictions_dataframe_snapshot (s : session_state) :
  (get_predictions_dataframe s).2 = s
  ∧ (predictions s = Some [] →
     (get_predictions_dataframe s).1 = inr None)
  ∧ (∀ records : list dict,
       predictions s = Some records → records ≠ [] →
       (get_predictions_dataframe s).1 = inr (Some (pd_DataFrame records))
       ∧ rows (pd_DataFrame records)
         = (λ r, (λ c, dict_get c r) <$> columns (pd_DataFrame records))
             <$> records
       ∧ df_len (pd_DataFrame records) = length records).
Proof.
  destruct s as [[l|]]; cbn.
  - split; [by destruct l |]. split; [by intros [= ->] |].
    intros records [= <-] Hne. destruct l; [done |].
    split_and!; [done | done |].
    unfold df_len, pd_DataFrame. cbn [rows]. by rewrite length_fmap.
  - split_and!; done.
Qed.

Lemma get_predictions_dataframe_snapshot_example :
  (get_predictions_dataframe (save_predictions (sample_calls 3)
                                initial_session).2).1
  = inr (Some (pd_DataFrame (stamped <$> sample_calls 3))).
Proof.
  refine (proj1 (proj2 (proj2
    (get_predictions_dataframe_snapshot
       (save_predictions (sample_calls 3) initial_session).2))
    (stamped <$> sample_calls 3) _ _)); [reflexivity | discriminate].
Defined.

(** C7 as stated fails for no records: the export of the empty history is
    [None], not a header line alone; [generate_download_link] also
    returns [None] for the frame of no records. *)
Lemma export_of_empty_history_is_None :
  (history_download_link initial_session).1 = inr None
  ∧ generate_download_link (Some (pd_DataFrame []))
      "prediction_history.csv" "Download Data" = None
  ∧ generate_download_link None
      "prediction_history.csv" "Download Data" = None.
Proof. done. Qed.

(** C7, amended.  For a history of N ≥ 1 prediction records the export
    is a CSV of N + 1 lines: the header naming the eleven fields in the
    order longitude, latitude, distance, temperature, humidity, pressure,
    hour, time_duration, severity_class, severity_label, timestamp, then
    one line per record, in the order stored, with that record's values.
    For an empty history there is no export ([None]). *)
Theorem export_csv_lines (s : session_state) (records : list dict) :
  predictions s = Some records →
  Forall has_record_fields records →
  (records = [] → (history_download_link s).1 = inr None)
  ∧ (records ≠ [] →
     ∃ link : download_link,
       (history_download_link s).1 = inr (Some link)
       ∧ generate_download_link (Some (pd_DataFrame records))
           (link_filename link) (link_text link) = Some link
       ∧ link_csv link
         = HeaderLine
             ["longitude"; "latitude"; "distance"; "temperature";
              "humidity"; "pressure"; "hour"; "time_duration";
              "severity_class"; "severity_label"; "timestamp"]
           :: ((λ r, RowLine (record_cells r)) <$> records)
       ∧ length (link_csv link) = (length records + 1)%nat).
Proof.
  intros Hs Hall. split.
  - intros ->. destruct s as [l]. cbn in Hs. by subst l.
  - intros Hne. destruct s as [l]. cbn in Hs. subst l.
    unfold history_download_link, mbind, Py_bind.
    rewrite get_predictions_dataframe_run.
    destruct records as [|r records]; [done |].
    cbn [is_nil]. rewrite pd_DataFrame_records by done.
    eexists. split; [reflexivity |]. cbn.
    split_and!; [done | |].
    + unfold to_csv. cbn [columns rows fmap list_fmap].
      by rewrite <- list_fmap_compose.
    + rewrite !length_fmap. lia.
Qed.

Lemma export_csv_lines_example :
  ∃ link : download_link,
    (history_download_link
       {| predictions := Some (stamped <$> sample_calls 3) |}).1
    = inr (Some link)
    ∧ length (link_csv link) = 4%nat.
Proof.
  destruct (export_csv_lines
              {| predictions := Some (stamped <$> sample_calls 3) |}
              (stamped <$> sample_calls 3)) as [_ H].
  - reflexivity.
  - repeat constructor.
  - destruct H as (link & H1 & _ & _ & H2); [discriminate |].
    exists link. split; [exact H1 | exact H2].
Defined.

(** C10.  The label and colour lookups are total.  For a class outside
    0, 1, 2, 3 they return the defaults "Unknown" and "#CCCCCC"; for the
    four classes they return the label and colour of the table. *)
Theorem severity_lookups_total (severity_class : Z) :
  (¬ (0 ≤ severity_class ≤ 3) →
   get_severity_label severity_class = "Unknown"
   ∧ get_severity_color severity_class = "#CCCCCC")
  ∧ (get_severity_label 0 = "Minimal" ∧ get_severity_color 0 = "#4CAF50")
  ∧ (get_severity_label 1 = "Minor" ∧ get_severity_color 1 = "#FFC107")
  ∧ (get_severity_label 2 = "Moderate" ∧ get_severity_color 2 = "#FF9800")
  ∧ (get_severity_label 3 = "Severe" ∧ get_severity_color 3 = "#F44336").
Proof.
  split; [| done].
  intros Hout. unfold get_severity_label, get_severity_color.
  assert (config.SEVERITY_CLASSES !! severity_class = None) as ->.
  { unfold config.SEVERITY_CLASSES.
    rewrite !lookup_insert_ne by lia. apply lookup_singleton_ne. lia. }
  done.
Qed.

End record_frames.

(** ** Feature correlations *)

Section feature_correlations.
Import utils.

Global Instance sorts_before_total : Total by_correlation_desc.
Proof.
  intros [a [x|]] [b [y|]]; unfold by_correlation_desc; cbn; auto.
  destruct (Qlt_le_dec x y) as [H|H].
  - right. apply Qle_bool_iff. by apply Qlt_le_weak.
  - left. by apply Qle_bool_iff.
Qed.

Global Instance sorts_before_trans : Transitive by_correlation_desc.
Proof.
  intros [a [x|]] [b [y|]] [c [z|]]; unfold by_correlation_desc; cbn;
    try done.
  rewrite !Qle_bool_iff. intros H1 H2. by apply Qle_trans with y.
Qed.

Example sort_values_desc_sample :
  merge_sort by_correlation_desc
    [("hour", Some (2 # 10)); ("distance", NaN);
     ("time_duration", Some (9 # 10)); ("humidity", Some 0)]%Q
  = [("time_duration", Some (9 # 10)); ("hour", Some (2 # 10));
     ("humidity", Some 0); ("distance", NaN)]%Q.
Proof. reflexivity. Qed.

Lemma StronglySorted_lookup_lt {A} (R : relation A) (l : list A)
    (i j : nat) (a b : A) :
  StronglySorted R l → (i < j)%nat →
  l !! i = Some a → l !! j = Some b → R a b.
Proof.
  intros Hl. revert i j. induction Hl as [|x l Hl IH Hx]; intros i j Hij Hi Hj.
  - done.
  - destruct j as [|j]; [lia |]. cbn in Hj. destruct i as [|i].
    + cbn in Hi. simplify_eq. rewrite Forall_forall in Hx.
      apply Hx. by eapply list_elem_of_lookup_2.
    + cbn in Hi. apply (IH i j); [lia | done | done].
Qed.

Context (corr : list (option value) → list (option value) → float).
Context {S : Type}.

Lemma df_getitem_records (records : list dict) (c : string) (st : S) :
  Forall has_record_fields records → c ∈ RECORD_FIELDS →
  df_getitem {| columns := RECORD_FIELDS;
                rows := record_cells <$> records |} c st
  = (inr (field_values c records), st).
Proof.
  intros Hall Hc. unfold field_values.
  assert (∀ i, RECORD_FIELDS !! i = Some c →
            (λ row, mjoin (row !! i)) <$> (record_cells <$> records)
            = (λ r, dict_get c r) <$> records) as Hcol.
  { intros i Hi. rewrite <- list_fmap_compose. apply Forall_fmap_ext.
    eapply Forall_impl; [exact Hall |]. intros r Hr. cbn.
    rewrite <- (record_row r Hr), list_lookup_fmap, Hi. done. }
  unfold RECORD_FIELDS in Hc.
  repeat (apply elem_of_cons in Hc as [-> | Hc]);
    [.. | by apply elem_of_nil in Hc];
    unfold df_getitem; cbn [columns rows];
    match goal with
    | |- context [column_index ?c ?l] =>
        let i := eval cbv in (column_index c l) in
        change (column_index c l) with i
    end;
    cbv beta iota; by rewrite Hcol.
Qed.

Lemma severity_class_field : "severity_class" ∈ RECORD_FIELDS.
Proof. unfold RECORD_FIELDS. repeat constructor. Qed.

Lemma params_fields : params ⊆ RECORD_FIELDS.
Proof.
  intros p Hp. unfold params in Hp. unfold RECORD_FIELDS.
  repeat (apply elem_of_cons in Hp as [-> | Hp]);
    [.. | by apply elem_of_nil in Hp]; repeat constructor.
Qed.

(** The loop over the parameters, on the frame of prediction records. *)
Lemma correlations_records (records : list dict) (ps : list string)
    (corr_data : list (string * float)) (st : S) :
  Forall has_record_fields records → ps ⊆ RECORD_FIELDS →
  correlations corr
    {| columns := RECORD_FIELDS; rows := record_cells <$> records |}
    ps corr_data st
  = (inr (corr_data
          ++ ((λ p, (p, float_abs
                          (corr (field_values p records)
                                (field_values "severity_class" records))))
                <$> ps)),
     st).
Proof.
  intros Hall. revert corr_data.
  induction ps as [|p ps IH]; intros corr_data Hps.
  - cbn. by rewrite app_nil_r.
  - assert (p ∈ RECORD_FIELDS) as Hp by (apply Hps; left).
    assert (ps ⊆ RECORD_FIELDS) as Hps' by (intros x Hx; apply Hps; by right).
    cbn [correlations columns]. rewrite bool_decide_eq_true_2 by done.
    unfold mbind at 1, Py_bind at 1.
    rewrite df_getitem_records by done.
    unfold mbind at 1, Py_bind at 1.
    rewrite df_getitem_records by (done || apply severity_class_field).
    rewrite IH by done. by rewrite <- app_assoc.
Qed.

(** The absolute value the code takes is the specification's. *)
Lemma float_abs_absolute_value (x : float) :
  float_abs x = absolute_value <$> x.
Proof.
  destruct x as [[[|n|n] d]|]; reflexivity.
Qed.

Lemma absolute_value_cases (r : Q) :
  (0 <= absolute_value r)%Q
  ∧ (absolute_value r = r ∨ absolute_value r = (- r)%Q).
Proof.
  unfold absolute_value. destruct (Qle_bool 0 r) eqn:Hr.
  - split; [by apply Qle_bool_iff | by left].
  - split; [| by right].
    destruct (Qlt_le_dec r 0) as [Hneg|Hpos].
    + apply Qlt_le_weak in Hneg. lra.
    + apply Qle_bool_iff in Hpos. congruence.
Qed.

(** C6.  [plot_parameter_importance] reports nothing ([None]) for fewer
    than five records, rather than correlations of zero.  For five or
    more prediction records (of numbers: text would make [Series.corr]
    raise) it reports, for each of the eight features, the feature's name
    with the absolute value of its Pearson correlation with
    [severity_class] over the records (never negative, and the correlation
    or its opposite), in descending order of that value; an undefined
    correlation, NaN, stays NaN and comes after every number. *)
Theorem plot_parameter_importance_correlations (st : S) :
  plot_parameter_importance corr None st = (inr None, st)
  ∧ (∀ df : DataFrame,
       (df_len df < 5)%nat →
       plot_parameter_importance corr (Some df) st = (inr None, st))
  ∧ (∀ records : list dict,
       (length records < 5)%nat →
       plot_parameter_importance corr (Some (pd_DataFrame records)) st
       = (inr None, st))
  ∧ (∀ records : list dict,
       Forall has_record_fields records →
       Forall numeric_features records →
       (5 ≤ length records)%nat →
       ∃ out : list (string * float),
         plot_parameter_importance corr (Some (pd_DataFrame records)) st
         = (inr (Some out), st)
         ∧ out ≡ₚ feature_correlations corr records
         ∧ out.*1 ≡ₚ ["longitude"; "latitude"; "distance"; "temperature";
                      "humidity"; "pressure"; "hour"; "time_duration"]
         ∧ (∀ (p : string) (v : float),
              (p, v) ∈ out →
              match corr (field_values p records)
                         (field_values "severity_class" records) with
              | Some r =>
                  ∃ a : Q, v = Some a ∧ (0 <= a)%Q ∧ (a = r ∨ a = (- r)%Q)
              | None => v = None
              end)
         ∧ StronglySorted by_correlation_desc out
         ∧ (∀ (i j : nat) (a b : string * float),
              (i < j)%nat → out !! i = Some a → out !! j = Some b →
              match a.2, b.2 with
              | Some x, Some y => (y <= x)%Q
              | None, Some _ => False
              | _, None => True
              end)).
Proof.
  assert (∀ df : DataFrame, (df_len df < 5)%nat →
            plot_parameter_importance corr (Some df) st = (inr None, st))
    as Hfew.
  { intros df Hlen. unfold plot_parameter_importance.
    rewrite (bool_decide_eq_true_2 _ Hlen), orb_true_r. done. }
  split_and!; [done | exact Hfew | |].
  - intros records Hlen. apply Hfew.
    unfold df_len, pd_DataFrame. cbn [rows]. by rewrite length_fmap.
  - intros records Hall _ Hlen.
    assert (records ≠ []) as Hne by (intros ->; cbn in Hlen; lia).
    rewrite pd_DataFrame_records by done.
    exists (merge_sort by_correlation_desc
              (feature_correlations corr records)).
    split_and!.
    + unfold plot_parameter_importance.
      assert (df_empty {| columns := RECORD_FIELDS;
                          rows := record_cells <$> records |} = false)
        as -> by (by destruct records).
      rewrite bool_decide_eq_false_2
        by (unfold df_len; cbn [rows]; rewrite length_fmap; lia).
      cbn [orb]. unfold mbind, Py_bind.
      rewrite correlations_records by (done || apply params_fields).
      unfold feature_correlations. cbn [app sort_values_desc].
      erewrite (list_fmap_ext _ _ params); [reflexivity |].
      intros _ p _. cbn beta. by rewrite float_abs_absolute_value.
    + apply merge_sort_Permutation.
    + rewrite merge_sort_Permutation. reflexivity.
    + intros p v Hin. rewrite merge_sort_Permutation in Hin.
      apply list_elem_of_fmap in Hin as (p' & [= -> ->] & _).
      destruct (corr _ _) as [r|]; [| done].
      exists (absolute_value r). split; [done |].
      apply absolute_value_cases.
    + apply StronglySorted_merge_sort; apply _.
    + intros i j a b Hij Hi Hj.
      pose proof (StronglySorted_lookup_lt by_correlation_desc _ i j a b
        (StronglySorted_merge_sort _ _) Hij Hi Hj) as Hab.
      unfold by_correlation_desc, sorts_before in Hab.
      destruct (a.2) as [x|], (b.2) as [y|]; try done.
      by apply Qle_bool_iff.
Qed.

End feature_correlations.

(** Five sample predictions.  The distance rises with the class
    (correlation 1), the temperature falls as it rises (-7/8), and the
    place is the same throughout (no correlation defined): the chart
    shows the distance first, then the temperature with 7/8, and the two
    coordinates last. *)
Lemma plot_parameter_importance_correlations_example :
  ∃ out : list (string * float),
    utils.plot_parameter_importance pearson
      (Some (pd_DataFrame sample_history)) ()
    = (inr (Some out), ())
    ∧ out = [("distance", Some 1%Q); ("temperature", Some (7 # 8)%Q);
             ("pressure", Some (2 # 3)%Q); ("hour", Some (7 # 12)%Q);
             ("humidity", Some (1 # 4)%Q);
             ("time_duration", Some (1 # 9)%Q);
             ("longitude", NaN); ("latitude", NaN)]
    ∧ pearson (field_values "temperature" sample_history)
        (field_values "severity_class" sample_history)
      = Some (-7 # 8)%Q.
Proof.
  destruct (proj2 (proj2 (proj2
              (plot_parameter_importance_correlations pearson ())))
              sample_history) as (out & Hrun & _).
  - repeat constructor.
  - repeat constructor.
  - cbn. lia.
  - exists out. split; [exact Hrun |]. split; [| by vm_compute].
    assert (utils.plot_parameter_importance pearson
              (Some (pd_DataFrame sample_history)) ()
            = (inr (Some [("distance", Some 1%Q);
                          ("temperature", Some (7 # 8)%Q);
                          ("pressure", Some (2 # 3)%Q);
                          ("hour", Some (7 # 12)%Q);
                          ("humidity", Some (1 # 4)%Q);
                          ("time_duration", Some (1 # 9)%Q);
                          ("longitude", NaN); ("latitude", NaN)]), ()))
      as Hval by (by vm_compute).
    rewrite Hrun in Hval. by injection Hval.
Defined.

(** * Further properties of the code *)

(** ** The loaders' caches *)

Section loader_caches.
Import model_loader.

Lemma shown_nil (p : process) : shown [] p = p.
Proof. destruct p. unfold shown. cbn. by rewrite app_nil_r. Qed.

(** A call that finds its cache filled hands out the stored value and
    shows the stored messages again. *)
Lemma load_model_hit (p : process) (m : option Model) (msgs : list string) :
  load_model_cache p = Some (m, msgs) → load_model p = (inr m, shown msgs p).
Proof. destruct p. cbn. by intros ->. Qed.

Lemma load_scaler_hit (p : process) (s : Scaler) (msgs : list string) :
  load_scaler_cache p = Some (s, msgs) → load_scaler p = (inr s, shown msgs p).
Proof. destruct p. cbn. by intros ->. Qed.

Local Ltac miss_run :=
  cbv -[drop length app String.app];
  rewrite ?drop_app_length, ?drop_all, ?app_nil_r;
  split; [reflexivity | by cbn].

(** What a call of [load_model] leaves behind: its result in its cache,
    with the messages it has shown, and nothing else changed. *)
Lemma load_model_effect (p : process) :
  ∃ (m : option Model) (p' : process) (more : list string),
    load_model p = (inr m, p')
    ∧ load_model_cache p' = Some (m, more)
    ∧ st_errors p' = st_errors p ++ more
    ∧ model_pkl p' = model_pkl p ∧ scaler_pkl p' = scaler_pkl p
    ∧ makedirs_raises p' = makedirs_raises p
    ∧ StandardScaler p' = StandardScaler p
    ∧ load_scaler_cache p' = load_scaler_cache p.
Proof.
  destruct p as [mp sp mk ss [[v msgs]|] sc errs].
  - by eexists v, _, msgs.
  - destruct mp as [|e|m]; [destruct mk as [e|] | |].
    + eexists None, _, ["Error loading model: " +:+ e].
      miss_run.
    + eexists None, _, []. miss_run.
    + eexists None, _, ["Error loading model: " +:+ e].
      miss_run.
    + eexists (Some m), _, []. miss_run.
Qed.

Lemma load_scaler_effect (p : process) :
  ∃ (s : Scaler) (p' : process) (more : list string),
    load_scaler p = (inr s, p')
    ∧ load_scaler_cache p' = Some (s, more)
    ∧ st_errors p' = st_errors p ++ more
    ∧ model_pkl p' = model_pkl p ∧ scaler_pkl p' = scaler_pkl p
    ∧ makedirs_raises p' = makedirs_raises p
    ∧ StandardScaler p' = StandardScaler p
    ∧ load_model_cache p' = load_model_cache p.
Proof.
  destruct p as [mp sp mk ss mc [[s msgs]|] errs].
  - by eexists s, _, msgs.
  - destruct sp as [|e|s].
    + eexists ss, _, []. miss_run.
    + eexists ss, _, ["Error loading scaler: " +:+ e].
      miss_run.
    + eexists s, _, []. miss_run.
Qed.

(** X1.  [load_model] loads once per process.  Whatever a call showed
    ([more]: nothing, or the one message of a failed load), a call after it
    returns what it returned and shows the same again, as
    [st.cache_resource] replays the messages of the cached run; the files
    are not read again, whatever has become of them in between, and nothing
    else changes. *)
Theorem load_model_memoized (p : process) :
  ∃ more : list string,
    st_errors (load_model p).2 = st_errors p ++ more
    ∧ (∀ (m : pickle_file Model) (s : pickle_file Scaler),
         load_model (with_files m s (load_model p).2)
         = ((load_model p).1,
            shown more (with_files m s (load_model p).2))).
Proof.
  destruct (load_model_effect p) as (v & p' & more & E & Hc & He & _).
  rewrite E. cbn [fst snd]. exists more. split; [done |].
  intros m s. by apply load_model_hit.
Qed.

(** X2.  [load_scaler] loads once per process, in the same way: a call
    after another returns the same scaler and shows again what that call
    showed, without reading the files. *)
Theorem load_scaler_memoized (p : process) :
  ∃ more : list string,
    st_errors (load_scaler p).2 = st_errors p ++ more
    ∧ (∀ (m : pickle_file Model) (s : pickle_file Scaler),
         load_scaler (with_files m s (load_scaler p).2)
         = ((load_scaler p).1,
            shown more (with_files m s (load_scaler p).2))).
Proof.
  destruct (load_scaler_effect p) as (v & p' & more & E & Hc & He & _).
  rewrite E. cbn [fst snd]. exists more. split; [done |].
  intros m s. by apply load_scaler_hit.
Qed.

End loader_caches.

(** ** [predict_severity] as a whole *)

(** The first two steps of [predict_severity], given what the loaders do. *)
Ltac loaders_start E1 E2 :=
  unfold model_loader.predict_severity, try_except;
  unfold mbind at 1, Py_bind at 1; rewrite E1;
  unfold mbind at 1, Py_bind at 1; rewrite E2;
  cbv beta iota.

Section predict_severity_runs.
Import model_loader.

(** Once the loaders have run, the outcome of [predict_severity] (its
    result and the messages it shows) is decided by the model and the
    scaler they returned and by the features alone. *)
Lemma predict_severity_after_loaders (m : option Model) (s : Scaler)
    (features : list Q) :
  ∃ (r : option Z) (msgs : list string),
    (∀ p p1 p2 : process,
       load_model p = (inr m, p1) → load_scaler p1 = (inr s, p2) →
       predict_severity features p = (inr r, shown msgs p2))
    ∧ (r = None → ∃ e, msgs = ["Error making prediction: " +:+ e])
    ∧ (is_Some r → msgs = []).
Proof.
  destruct m as [model|].
  - destruct (transform s features) as [e|x] eqn:Et.
    { exists None, ["Error making prediction: " +:+ e].
      split_and!; [| eauto | by intros []].
      intros p p1 p2 E1 E2. loaders_start E1 E2.
      unfold mbind, Py_bind. by rewrite Et. }
    destruct (predict model x) as [e|ys] eqn:Ep.
    { exists None, ["Error making prediction: " +:+ e].
      split_and!; [| eauto | by intros []].
      intros p p1 p2 E1 E2. loaders_start E1 E2.
      unfold mbind, Py_bind. rewrite Et. cbn. by rewrite Ep. }
    destruct ys as [|y ys].
    { eexists None, [_]. split_and!; [| eauto | by intros []].
      intros p p1 p2 E1 E2. loaders_start E1 E2.
      unfold mbind, Py_bind. rewrite Et. cbn. by rewrite Ep. }
    exists (Some (py_int y)), []. split_and!; [| done | done].
    intros p p1 p2 E1 E2. loaders_start E1 E2. rewrite shown_nil.
    unfold mbind, Py_bind. rewrite Et. cbn. by rewrite Ep.
  - destruct (decide (length features < 8)%nat) as [Hshort|Hlong].
    { eexists None, [_]. split_and!; [| eauto | by intros []].
      intros p p1 p2 E1 E2. loaders_start E1 E2.
      do 8 (destruct features as [|? features]; [reflexivity |]).
      cbn in Hshort. lia. }
    do 8 (destruct features as [|? features]; [cbn in Hlong; lia |]).
    exists (Some (fallback_rule_policy q5 q1 q6)), [].
    split_and!; [| done | done].
    intros p p1 p2 E1 E2. loaders_start E1 E2. rewrite shown_nil.
    unfold mbind, Py_bind. cbn [getitem lookup list_lookup mret Py_ret].
    rewrite py_in_rush_hour, !Qlt_bool_decide.
    unfold fallback_rule_policy.
    repeat case_bool_decide; repeat case_decide; simpl;
      try reflexivity; exfalso; tauto.
Qed.

(** The two loaders, one after the other: what they return, and the
    process they leave, with both caches filled and only messages added. *)
Lemma loaders_run (p : process) :
  ∃ (m : option Model) (s : Scaler) (p1 p2 : process)
    (mm ms more : list string),
    load_model p = (inr m, p1) ∧ load_scaler p1 = (inr s, p2)
    ∧ (load_model p).1 = inr m ∧ (load_scaler p).1 = inr s
    ∧ (load_scaler (load_model p).2).2 = p2
    ∧ load_model_cache p2 = Some (m, mm)
    ∧ load_scaler_cache p2 = Some (s, ms)
    ∧ st_errors p2 = st_errors p ++ more
    ∧ model_pkl p2 = model_pkl p
    ∧ scaler_pkl p2 = scaler_pkl p.
Proof.
  destruct (load_model_effect p)
    as (m & p1 & more1 & E1 & Hc1 & He1 & F1 & F2 & F3 & F4 & F5).
  destruct (load_scaler_effect p1)
    as (s & p2 & more2 & E2 & Hc2 & He2 & G1 & G2 & G3 & G4 & G5).
  exists m, s, p1, p2, more1, more2, (more1 ++ more2).
  rewrite <- (load_scaler_frame p p1 F2 F4 F5).
  rewrite E1. cbn [fst snd]. rewrite E2. cbn [fst snd].
  split_and!; try congruence.
  by rewrite He2, He1, app_assoc.
Qed.

Lemma predict_severity_returns (p : process) (features : list Q) :
  ∃ r : option Z, (predict_severity features p).1 = inr r.
Proof.
  destruct (loaders_run p) as (m & s & p1 & p2 & mm & ms & more & E1 & E2 & _).
  destruct (predict_severity_after_loaders m s features)
    as (r & msgs & Hrun & _).
  rewrite (Hrun _ _ _ E1 E2). by exists r.
Qed.

(** X3.  [predict_severity] never lets an exception out, whatever the files
    hold and whatever the features are (too few, too many).  It leaves the
    files alone, fills both caches, and only adds to the messages shown. *)
Theorem predict_severity_never_raises (p : process) (features : list Q) :
  ∃ (r : option Z) (more : list string),
    (predict_severity features p).1 = inr r
    ∧ st_errors (predict_severity features p).2 = st_errors p ++ more
    ∧ model_pkl (predict_severity features p).2 = model_pkl p
    ∧ scaler_pkl (predict_severity features p).2 = scaler_pkl p
    ∧ is_Some (load_model_cache (predict_severity features p).2)
    ∧ is_Some (load_scaler_cache (predict_severity features p).2).
Proof.
  destruct (loaders_run p)
    as (m & s & p1 & p2 & mm & ms & more & E1 & E2 & _ & _ & _
        & Hm & Hs & He & F1 & F2).
  destruct (predict_severity_after_loaders m s features)
    as (r & msgs & Hrun & _).
  rewrite (Hrun _ _ _ E1 E2). exists r, (more ++ msgs). cbn.
  rewrite He, Hm, Hs, app_assoc. split_and!; by eauto.
Qed.

(** X4.  A failure is always reported, and only a failure is: when
    [predict_severity] returns [None], the one thing it has done beyond
    running the loaders is to show an "Error making prediction" message;
    when it returns a class it has shown nothing of its own. *)
Theorem predict_severity_reports_failure (p : process) (features : list Q) :
  ((predict_severity features p).1 = inr None →
   ∃ e : exn,
     (predict_severity features p).2
     = shown ["Error making prediction: " +:+ e]
         (load_scaler (load_model p).2).2)
  ∧ (∀ c : Z,
       (predict_severity features p).1 = inr (Some c) →
       (predict_severity features p).2 = (load_scaler (load_model p).2).2).
Proof.
  destruct (loaders_run p)
    as (m & s & p1 & p2 & mm & ms & more & E1 & E2 & _ & _ & -> & _).
  destruct (predict_severity_after_loaders m s features)
    as (r & msgs & Hrun & Hnone & Hsome).
  rewrite (Hrun _ _ _ E1 E2). cbn. split.
  - intros [= ->]. destruct Hnone as [e ->]; [done |]. by exists e.
  - intros c [= ->]. rewrite Hsome by done. apply shown_nil.
Qed.

(** X5.  What [predict_severity] returns does not depend on the calls made
    before it in the process, nor on what has become of the two files since
    the first call: the artifacts of the first load are used for good. *)
Theorem predict_severity_repeatable (p : process) (features earlier : list Q)
    (m : pickle_file Model) (s : pickle_file Scaler) :
  (predict_severity features
     (with_files m s (predict_severity earlier p).2)).1
  = (predict_severity features p).1.
Proof.
  destruct (loaders_run p)
    as (vm & vs & p1 & p2 & mm & ms & more & E1 & E2 & _ & _ & _
        & Hm & Hs & _).
  destruct (predict_severity_after_loaders vm vs features)
    as (r & msgs & Hrun & _).
  destruct (predict_severity_after_loaders vm vs earlier)
    as (r' & msgs' & Hrun' & _).
  rewrite (Hrun' _ _ _ E1 E2), (Hrun _ _ _ E1 E2). cbn [fst snd].
  erewrite Hrun; [done | |].
  - apply load_model_hit. exact Hm.
  - apply load_scaler_hit. exact Hs.
Qed.

End predict_severity_runs.

(** ** [predict_severity]: what makes it fail *)

Section predict_severity_edges.
Import model_loader.

(** X6.  Without a model, the rule policy reads the features at positions 2, 6
    and 7.  Fewer than eight features make the call fail: it returns
    [None] and shows "list index out of range".  Features after the eighth
    are not looked at. *)
Theorem predict_severity_feature_count (p : process) (features : list Q) :
  (load_model p).1 = inr None →
  ((length features < 8)%nat →
   predict_severity features p
   = (inr None,
      shown ["Error making prediction: list index out of range"]
        (load_scaler (load_model p).2).2))
  ∧ (∀ extra : list Q,
       (length features = 8)%nat →
       predict_severity (features ++ extra) p
       = predict_severity features p).
Proof.
  intros Hnone.
  destruct (loaders_run p)
    as (m & s & p1 & p2 & mm & ms & more & E1 & E2 & Hm' & _ & -> & _).
  assert (m = None) as -> by congruence.
  split.
  - intros Hshort. loaders_start E1 E2.
    do 8 (destruct features as [|? features]; [reflexivity |]).
    cbn in Hshort. lia.
  - intros extra Hlen.
    do 8 (destruct features as [|? features]; [discriminate |]).
    destruct features; [| discriminate].
    loaders_start E1 E2. symmetry. loaders_start E1 E2. reflexivity.
Qed.

Lemma predict_severity_feature_count_example :
  (predict_severity [1; 2; 3]%Q (fresh_process NoFile NoFile)).1 = inr None
  ∧ (predict_severity (example_features ++ [0; 0]%Q)
       (fresh_process NoFile NoFile)).1
    = inr (Some 3).
Proof.
  split.
  - rewrite (proj1 (predict_severity_feature_count
                      (fresh_process NoFile NoFile) [1; 2; 3]%Q eq_refl));
      [reflexivity | cbn; lia].
  - rewrite (proj2 (predict_severity_feature_count
                      (fresh_process NoFile NoFile) example_features eq_refl));
      reflexivity.
Defined.

(** X7.  With a model loaded, a scaler or a model that raises, or a model that
    predicts nothing, makes the call fail: it returns [None] and shows the
    exception's message; the rule policy is not used in its place. *)
Theorem predict_severity_model_failure (p : process) (features : list Q)
    (m : Model) (sc : Scaler) :
  (load_model p).1 = inr (Some m) →
  (load_scaler p).1 = inr sc →
  (∀ e : exn,
     transform sc features = inl e →
     predict_severity features p
     = (inr None,
        shown ["Error making prediction: " +:+ e]
          (load_scaler (load_model p).2).2))
  ∧ (∀ (x : list Q) (e : exn),
       transform sc features = inr x → predict m x = inl e →
       predict_severity features p
       = (inr None,
          shown ["Error making prediction: " +:+ e]
            (load_scaler (load_model p).2).2))
  ∧ (∀ x : list Q,
       transform sc features = inr x → predict m x = inr [] →
       (predict_severity features p).1 = inr None).
Proof.
  intros Hsome Hsc.
  destruct (loaders_run p)
    as (m' & s' & p1 & p2 & mm & ms & more & E1 & E2 & Hm' & Hs' & -> & _).
  assert (m' = Some m) as -> by congruence.
  assert (s' = sc) as -> by congruence.
  split_and!.
  - intros e Et. loaders_start E1 E2.
    unfold mbind, Py_bind. by rewrite Et.
  - intros x e Et Ep. loaders_start E1 E2.
    unfold mbind, Py_bind. rewrite Et. cbn. by rewrite Ep.
  - intros x Et Ep. loaders_start E1 E2.
    unfold mbind, Py_bind. rewrite Et. cbn. by rewrite Ep.
Qed.

Lemma predict_severity_model_failure_example :
  predict_severity example_features missing_scaler_process
  = (inr None,
     shown ["Error making prediction: "
            +:+ "This StandardScaler instance is not fitted yet."]
       (load_scaler (load_model missing_scaler_process).2).2).
Proof.
  apply (proj1 (predict_severity_model_failure missing_scaler_process
                  example_features (constant_model 0)
                  unfitted_StandardScaler eq_refl eq_refl)).
  reflexivity.
Defined.

End predict_severity_edges.

(** ** Dictionaries and saved records *)

Section saved_records.
Import utils.

Lemma dict_get_setitem (k : string) (v : value) (d : dict) :
  dict_get k (dict_setitem k v d) = Some v.
Proof.
  induction d as [|[k' v'] d IH]; cbn.
  - by rewrite decide_True.
  - destruct (decide (k = k')) as [->|Hne]; cbn.
    + by rewrite decide_True.
    + by rewrite decide_False.
Qed.

Lemma dict_get_setitem_ne (k k' : string) (v : value) (d : dict) :
  k' ≠ k → dict_get k' (dict_setitem k v d) = dict_get k' d.
Proof.
  intros Hne. induction d as [|[k'' v''] d IH]; cbn.
  - by rewrite decide_False.
  - destruct (decide (k = k'')) as [<-|Hne']; cbn.
    + by rewrite !decide_False.
    + destruct (decide (k' = k'')); done.
Qed.

Lemma dict_keys_setitem (k : string) (v : value) (d : dict) :
  dict_keys (dict_setitem k v d)
  = if decide (k ∈ dict_keys d) then dict_keys d else dict_keys d ++ [k].
Proof.
  unfold dict_keys. induction d as [|[k' v'] d IH]; cbn.
  - rewrite decide_False; [done | by intros ?%elem_of_nil].
  - destruct (decide (k = k')) as [<-|Hne]; cbn.
    + rewrite decide_True; [done | left].
    + rewrite IH. destruct (decide (k ∈ d.*1)) as [Hin|Hout].
      * rewrite decide_True; [done | by right].
      * rewrite decide_False; [done |].
        intros [?|?]%elem_of_cons; done.
Qed.

(** X8.  [save_prediction] never raises, also when [predictions] was never
    assigned.  The record it stores is the last of the history: it holds
    the time of the call under "timestamp", whether or not the dictionary
    passed had such a key, and the passed dictionary's value under every
    other key, with the keys in their order. *)
Theorem save_prediction_stamps (s : session_state) (now : string) (r : dict) :
  ∃ (history : list dict) (saved : dict),
    save_prediction now r s = (inr (), {| predictions := Some history |})
    ∧ last history = Some saved
    ∧ dict_get "timestamp" saved = Some (Str now)
    ∧ (∀ k : string, k ≠ "timestamp" → dict_get k saved = dict_get k r)
    ∧ dict_keys saved
      = (if decide ("timestamp" ∈ dict_keys r) then dict_keys r
         else dict_keys r ++ ["timestamp"]).
Proof.
  eexists _, (stamped (now, r)). split; [apply save_prediction_run |].
  split_and!.
  - case_decide as Hfull; [| apply last_snoc].
    destruct (default [] (predictions s)) as [|x [|y l]]; cbn in Hfull;
      [lia | lia |].
    cbn [tail app]. change (y :: l ++ [stamped (now, r)])
      with ((y :: l) ++ [stamped (now, r)]). apply last_snoc.
  - apply dict_get_setitem.
  - intros k Hk. by apply dict_get_setitem_ne.
  - apply dict_keys_setitem.
Qed.

End saved_records.

(** ** The "Predict" button *)

Section predict_button.
Import utils.

Lemma severity_info_label_run (c : Z) (s : session_state) :
  components.severity_info_label c s = (inr (get_severity_label c), s).
Proof.
  unfold components.severity_info_label, get_severity_label.
  destruct (decide (c = 0)) as [->|?]; [done |].
  destruct (decide (c = 1)) as [->|?]; [done |].
  destruct (decide (c = 2)) as [->|?]; [done |].
  destruct (decide (c = 3)) as [->|?]; [done |].
  assert (config.SEVERITY_CLASSES !! c = None) as ->; [| done].
  unfold config.SEVERITY_CLASSES.
  rewrite !lookup_insert_ne by done. by apply lookup_singleton_ne.
Qed.

(** X9.  The label the form shows and saves for a class is the one
    [get_severity_label] gives: the form's own lookup, with its "Unknown"
    entry as default, always finds a label and never raises [KeyError].
    The label is "Unknown" exactly for the classes outside 0 to 3. *)
Theorem severity_info_label_agrees (c : Z) (s : session_state) :
  components.severity_info_label c s = (inr (get_severity_label c), s)
  ∧ (get_severity_label c = "Unknown" ↔ ¬ (0 ≤ c ≤ 3)).
Proof.
  split; [apply severity_info_label_run |].
  unfold get_severity_label.
  destruct (decide (c = 0)) as [->|?]; [split; [done | lia] |].
  destruct (decide (c = 1)) as [->|?]; [split; [done | lia] |].
  destruct (decide (c = 2)) as [->|?]; [split; [done | lia] |].
  destruct (decide (c = 3)) as [->|?]; [split; [done | lia] |].
  assert (config.SEVERITY_CLASSES !! c = None) as ->.
  { unfold config.SEVERITY_CLASSES.
    rewrite !lookup_insert_ne by done. by apply lookup_singleton_ne. }
  split; [lia | done].
Qed.

Lemma record_prediction_run (now : string)
    (longitude latitude distance temperature humidity pressure hour
       time_duration : Q) (c : Z) (s : session_state) :
  components.record_prediction now longitude latitude distance temperature
    humidity pressure hour time_duration (Some c) s
  = save_prediction now
      (components.prediction_data longitude latitude distance temperature
         humidity pressure hour time_duration c (get_severity_label c)) s.
Proof.
  unfold components.record_prediction, mbind, Py_bind.
  by rewrite severity_info_label_run.
Qed.

(** X10.  One click, whatever the state: it never raises.  When the prediction
    fails, the history is left as it was and "Failed to make prediction" is
    shown after the prediction's own message.  When it gives a class, one
    record is saved: the form's eight values, the class, the label of the
    class, and the time. *)
Theorem predict_clicked_outcome (a : app.state) (c : submission) :
  let run :=
    model_loader.predict_severity
      [longitude c; latitude c; distance c; temperature c; humidity c;
       pressure c; hour c; time_duration c] (app.proc a) in
  (run.1 = inr None →
   click c a
   = (inr (),
      {| app.proc :=
           shown ["Failed to make prediction. "
                  +:+ "Please check the input parameters."] run.2;
         app.session := app.session a;
         app.current_page := app.current_page a |}))
  ∧ (∀ class : Z,
       run.1 = inr (Some class) →
       click c a
       = (inr (),
          {| app.proc := run.2;
             app.session :=
               (save_prediction (at_time c)
                  (components.prediction_data (longitude c) (latitude c)
                     (distance c) (temperature c) (humidity c) (pressure c)
                     (hour c) (time_duration c) class
                     (get_severity_label class))
                  (app.session a)).2;
             app.current_page := app.current_page a |}))
  ∧ (click c a).1 = inr ().
Proof.
  intros run. unfold click, app.predict_clicked.
  unfold mbind at 1 2 3, Py_bind at 1 2 3. unfold app.in_process at 1 3 5.
  fold run.
  destruct (predict_severity_returns (app.proc a)
              [longitude c; latitude c; distance c; temperature c;
               humidity c; pressure c; hour c; time_duration c])
    as (r & Hr).
  fold run in Hr. destruct run as [res p'] eqn:Erun. cbn [fst snd] in *.
  subst res. cbn [app.proc app.session app.current_page].
  destruct r as [class|].
  - split_and!; [done | | ].
    + intros ? [= <-]. unfold app.in_session.
      cbn [app.proc app.session app.current_page].
      rewrite record_prediction_run, save_prediction_run. done.
    + unfold app.in_session.
      cbn [app.proc app.session app.current_page].
      by rewrite record_prediction_run, save_prediction_run.
  - split_and!; [| done | done]. intros _. reflexivity.
Qed.

(** The session after a click: saved into when the prediction gave a
    class, untouched when it failed. *)
Lemma click_session (a : app.state) (c : submission) :
  ∃ r : option Z,
    (model_loader.predict_severity
       [longitude c; latitude c; distance c; temperature c; humidity c;
        pressure c; hour c; time_duration c] (app.proc a)).1 = inr r
    ∧ (click c a).1 = inr ()
    ∧ app.current_page (click c a).2 = app.current_page a
    ∧ app.session (click c a).2
      = match r with
        | Some class =>
            (save_prediction (at_time c)
               (components.prediction_data (longitude c) (latitude c)
                  (distance c) (temperature c) (humidity c) (pressure c)
                  (hour c) (time_duration c) class
                  (get_severity_label class))
               (app.session a)).2
        | None => app.session a
        end.
Proof.
  destruct (predict_severity_returns (app.proc a)
              [longitude c; latitude c; distance c; temperature c;
               humidity c; pressure c; hour c; time_duration c])
    as (r & Hr).
  exists r. split; [done |].
  unfold click, app.predict_clicked, mbind, Py_bind, app.in_process.
  destruct (model_loader.predict_severity _ (app.proc a)) as [res p'].
  cbn [fst] in Hr. subst res.
  destruct r as [class|]; [| done].
  unfold app.in_session. cbn [app.proc app.session app.current_page].
  by rewrite record_prediction_run, save_prediction_run.
Qed.

(** The history of a state, empty when it was never assigned. *)
Local Abbreviation history a := (default [] (predictions (app.session a))).

(** X11.  Clicking keeps the history in order: from a history of at most fifty
    full prediction records, any number of clicks, failed or not, never
    raises and leaves at most fifty records, all of them full prediction
    records, and no more than one record more per click. *)
Theorem clicks_keep_history (a : app.state) (cs : list submission) :
  Forall has_record_fields (history a) →
  (length (history a) ≤ 50)%nat →
  (clicks cs a).1 = inr ()
  ∧ Forall has_record_fields (history (clicks cs a).2)
  ∧ (length (history (clicks cs a).2) ≤ 50)%nat
  ∧ (length (history (clicks cs a).2)
     ≤ length (history a) + length cs)%nat.
Proof.
  revert a. induction cs as [|c cs IH]; intros a Hall Hlen.
  - cbn. split_and!; [done | done | done | lia].
  - cbn [clicks]. unfold mbind, Py_bind.
    destruct (click_session a c) as (r & _ & Hok & _ & Hs).
    destruct (click c a) as [res a1]. cbn [fst snd] in *. subst res.
    assert (Forall has_record_fields (history a1)
            ∧ (length (history a1) ≤ 50)%nat
            ∧ (length (history a1) ≤ length (history a) + 1)%nat)
      as (Hall1 & Hlen1 & Hgrow).
    { rewrite Hs. destruct r as [class|]; [| split_and!; [done | done | lia]].
      rewrite save_prediction_run. cbn [snd predictions default from_option id].
      assert (Forall has_record_fields
                (history a ++ [stamped (at_time c,
                   components.prediction_data (longitude c) (latitude c)
                     (distance c) (temperature c) (humidity c) (pressure c)
                     (hour c) (time_duration c) class
                     (get_severity_label class))])) as Hnew.
      { apply Forall_app. split; [done |].
        apply Forall_singleton, stamped_prediction_data_fields. }
      case_decide as Hfull; rewrite length_app in Hfull; cbn in Hfull.
      - destruct (history a) as [|x l] eqn:El; [cbn in Hfull; lia |].
        cbn [app tail] in *. apply Forall_cons_1 in Hnew as [_ Hnew].
        rewrite length_app. cbn in *. split_and!; [done | lia | lia].
      - rewrite length_app. cbn. split_and!; [done | lia | lia]. }
    destruct (IH a1 Hall1 Hlen1) as (Hr & Hall2 & Hlen2 & Hgrow2).
    cbn [length]. split_and!; [done | done | done | lia].
Qed.

Lemma clicks_keep_history_example :
  (length
     (history
        (clicks [example_submission "2025-01-01 08:00:00";
                 example_submission "2025-01-01 08:00:01"]
           (initial_state model_loader.NoFile model_loader.NoFile)).2)
   ≤ 50)%nat.
Proof.
  refine (proj1 (proj2 (proj2
    (clicks_keep_history
       (initial_state model_loader.NoFile model_loader.NoFile)
       [example_submission "2025-01-01 08:00:00";
        example_submission "2025-01-01 08:00:01"] _ _)))).
  - constructor.
  - cbn. lia.
Defined.

(** X12.  Without a model, every click saves a record: its class is the one of
    the fallback rule policy, its label is one of the four and never
    "Unknown", and it holds the time of the click and the form's values. *)
Theorem click_without_model (a : app.state) (c : submission) :
  (model_loader.load_model (app.proc a)).1 = inr None →
  ∃ saved : dict,
    last (history (click c a).2) = Some saved
    ∧ dict_get "severity_class" saved
      = Some (Int (fallback_rule_policy (hour c) (distance c)
                     (time_duration c)))
    ∧ (∃ label : string,
         dict_get "severity_label" saved = Some (Str label)
         ∧ label ∈ ["Minimal"; "Minor"; "Moderate"; "Severe"])
    ∧ dict_get "timestamp" saved = Some (Str (at_time c))
    ∧ dict_get "distance" saved = Some (Num (distance c))
    ∧ dict_get "hour" saved = Some (Num (hour c))
    ∧ dict_get "time_duration" saved = Some (Num (time_duration c)).
Proof.
  intros Hnone.
  destruct (click_session a c) as (r & Hr & _ & _ & Hs).
  rewrite predict_severity_rule in Hr by done. injection Hr as <-.
  rewrite Hs, save_prediction_run. cbn [snd predictions default from_option id].
  eexists. split.
  { case_decide as Hfull; [| apply last_snoc].
    destruct (history a) as [|x [|y l]]; cbn in Hfull; [lia | lia |].
    cbn [tail app].
    match goal with
    | |- last (y :: l ++ [?z]) = _ =>
        change (y :: l ++ [z]) with ((y :: l) ++ [z])
    end.
    apply last_snoc. }
  split_and!; try reflexivity.
  eexists. split; [reflexivity |].
  unfold fallback_rule_policy.
  repeat case_decide; cbn; repeat constructor.
Qed.

Lemma click_without_model_example :
  ∃ saved : dict,
    last (history
            (click (example_submission "2025-01-01 08:00:00")
               (initial_state model_loader.NoFile model_loader.NoFile)).2)
    = Some saved
    ∧ dict_get "severity_class" saved = Some (Int 3).
Proof.
  destruct (click_without_model
              (initial_state model_loader.NoFile model_loader.NoFile)
              (example_submission "2025-01-01 08:00:00") eq_refl)
    as (saved & Hlast & Hclass & _).
  exists saved. split; [exact Hlast | exact Hclass].
Defined.

End predict_button.

(** ** Navigation *)

Section navigation.

(** X13.  The sidebar's lookup of the selected entry: for the text of a page of
    [PAGES] it sets and returns that page's name, whatever page was current
    before; for a text that is no page's, the current page stays, and the
    lookup raises if none was ever set. *)
Theorem show_sidebar_selects (a : app.state) (selected_page : string) :
  (∀ key : string,
     (key, selected_page) ∈ config.PAGES →
     app.show_sidebar selected_page a
     = (inr key, {| app.proc := app.proc a; app.session := app.session a;
                    app.current_page := Some key |}))
  ∧ ((∀ key : string, (key, selected_page) ∉ config.PAGES) →
     app.show_sidebar selected_page a
     = (match app.current_page a with
        | Some key => inr key
        | None => inl "st.session_state has no attribute current_page"
        end, a)).
Proof.
  split.
  - intros key Hin. unfold config.PAGES in Hin.
    repeat (apply elem_of_cons in Hin as [Hin | Hin]);
      [.. | by apply elem_of_nil in Hin]; simplify_eq; reflexivity.
  - intros Hout.
    assert (∀ items : list (string * string),
              (∀ key, (key, selected_page) ∉ items) →
              app.select_page items selected_page a = (inr (), a)) as Hloop.
    { induction items as [|[key value] items IH]; intros Hnot; [done |].
      cbn. rewrite decide_False.
      - apply IH. intros k Hk. apply (Hnot k). by right.
      - intros ->. apply (Hnot key). left. }
    unfold app.show_sidebar, mbind, Py_bind. rewrite (Hloop _ Hout).
    unfold app.get_current_page. by destruct (app.current_page a).
Qed.

End navigation.

(** ** Frames of arbitrary histories *)

Section frames.
Import utils.

Lemma add_columns_keeps (cols ks : list string) (c : string) :
  c ∈ cols → c ∈ add_columns cols ks.
Proof.
  revert cols. induction ks as [|k ks IH]; intros cols Hc; [done |].
  cbn. apply IH. case_decide; [done |]. apply elem_of_app. by left.
Qed.

Lemma add_columns_adds (cols ks : list string) (k : string) :
  k ∈ ks → k ∈ add_columns cols ks.
Proof.
  revert cols. induction ks as [|k' ks IH]; intros cols Hk.
  - by apply elem_of_nil in Hk.
  - cbn. apply elem_of_cons in Hk as [-> | Hk]; [| by apply IH].
    apply add_columns_keeps. case_decide; [done |].
    apply elem_of_app. right. left.
Qed.

Lemma add_columns_NoDup (cols ks : list string) :
  NoDup cols → NoDup (add_columns cols ks).
Proof.
  revert cols. induction ks as [|k ks IH]; intros cols Hnd; [done |].
  cbn. apply IH. case_decide; [done |].
  apply NoDup_app. split_and!; [done | | apply NoDup_singleton].
  intros x Hx ->%list_elem_of_singleton. done.
Qed.

Lemma foldl_columns_keeps (records : list dict) (cols : list string)
    (c : string) :
  c ∈ cols →
  c ∈ foldl (λ cols r, add_columns cols (dict_keys r)) cols records.
Proof.
  revert cols. induction records as [|r records IH]; intros cols Hc; [done |].
  cbn. apply IH. by apply add_columns_keeps.
Qed.

Lemma foldl_columns_adds (records : list dict) (cols : list string)
    (r : dict) (k : string) :
  r ∈ records → k ∈ dict_keys r →
  k ∈ foldl (λ cols r, add_columns cols (dict_keys r)) cols records.
Proof.
  revert cols. induction records as [|r' records IH]; intros cols Hr Hk.
  - by apply elem_of_nil in Hr.
  - cbn. apply elem_of_cons in Hr as [<- | Hr]; [| by apply IH].
    by apply foldl_columns_keeps, add_columns_adds.
Qed.

Lemma foldl_columns_NoDup (records : list dict) (cols : list string) :
  NoDup cols →
  NoDup (foldl (λ cols r, add_columns cols (dict_keys r)) cols records).
Proof.
  revert cols. induction records as [|r records IH]; intros cols Hnd; [done |].
  cbn. by apply IH, add_columns_NoDup.
Qed.

(** The frame of any list of dictionaries: one row per dictionary, every
    row as long as the list of columns, every key of every dictionary a
    column, and no column twice. *)
Lemma pd_DataFrame_shape (records : list dict) :
  df_len (pd_DataFrame records) = length records
  ∧ Forall (λ row, length row = length (columns (pd_DataFrame records)))
      (rows (pd_DataFrame records))
  ∧ (∀ (r : dict) (k : string),
       r ∈ records → k ∈ dict_keys r →
       k ∈ columns (pd_DataFrame records))
  ∧ NoDup (columns (pd_DataFrame records)).
Proof.
  unfold df_len, pd_DataFrame. cbn [rows columns]. split_and!.
  - by rewrite length_fmap.
  - apply Forall_fmap, Forall_true. intros r. cbn. by rewrite length_fmap.
  - intros r k. apply foldl_columns_adds.
  - apply foldl_columns_NoDup, NoDup_nil_2.
Qed.

(** X15.  After any save the history can be exported, whatever dictionaries it
    holds: [get_predictions_dataframe] returns a frame with a "timestamp"
    column and one row per stored record, the last row being the record
    just saved, and [generate_download_link] turns it into a CSV of one
    line per record after the header, every line with one cell per
    column. *)
Theorem export_after_save (s : session_state) (now : string) (r : dict)
    (filename button_text : string) :
  ∃ (history : list dict) (df : DataFrame) (link : download_link),
    predictions (save_prediction now r s).2 = Some history
    ∧ (get_predictions_dataframe (save_prediction now r s).2).1
      = inr (Some df)
    ∧ df_len df = length history
    ∧ "timestamp" ∈ columns df
    ∧ last (rows df)
      = Some ((λ c, dict_get c (stamped (now, r))) <$> columns df)
    ∧ generate_download_link (Some df) filename button_text = Some link
    ∧ length (link_csv link) = S (length history)
    ∧ (∀ cells : list (option value),
         RowLine cells ∈ link_csv link →
         length cells = length (columns df)).
Proof.
  rewrite save_prediction_run. cbn [snd predictions].
  set (history :=
         if decide (50 < length (default [] (predictions s)
                                 ++ [stamped (now, r)]))%nat
         then tail (default [] (predictions s) ++ [stamped (now, r)])
         else default [] (predictions s) ++ [stamped (now, r)]).
  assert (last history = Some (stamped (now, r))) as Hlast.
  { unfold history. case_decide as Hfull; [| apply last_snoc].
    destruct (default [] (predictions s)) as [|x [|y l]]; cbn in Hfull;
      [lia | lia |].
    cbn [tail app].
    change (y :: l ++ [stamped (now, r)])
      with ((y :: l) ++ [stamped (now, r)]). apply last_snoc. }
  assert (stamped (now, r) ∈ history) as Hin.
  { destruct history as [|x l] using rev_ind; [done |].
    rewrite last_snoc in Hlast. injection Hlast as ->.
    apply elem_of_app. right. left. }
  destruct (pd_DataFrame_shape history) as (Hlen & Hrect & Hcols & Hnd).
  assert ("timestamp" ∈ columns (pd_DataFrame history)) as Hts.
  { apply (Hcols _ _ Hin). unfold stamped. cbn [fst snd].
    rewrite dict_keys_setitem. case_decide; [done |].
    apply elem_of_app. right. left. }
  assert (df_empty (pd_DataFrame history) = false) as Hne.
  { unfold df_empty.
    destruct (columns (pd_DataFrame history)) eqn:Ec;
      [by apply elem_of_nil in Hts |].
    unfold df_len in Hlen.
    destruct (rows (pd_DataFrame history)) eqn:Er; [| done].
    destruct history; [by apply elem_of_nil in Hin | done]. }
  eexists history, (pd_DataFrame history), _. split_and!.
  - done.
  - rewrite get_predictions_dataframe_run.
    destruct history; [by apply elem_of_nil in Hin | done].
  - done.
  - done.
  - unfold pd_DataFrame at 1. cbn [rows].
    rewrite fmap_last, Hlast. done.
  - unfold generate_download_link. by rewrite Hne.
  - cbn [link_csv to_csv length]. rewrite length_fmap. by rewrite <- Hlen.
  - intros cells Hcells. cbn [link_csv to_csv] in Hcells.
    apply elem_of_cons in Hcells as [? | Hcells]; [done |].
    apply list_elem_of_fmap in Hcells as (row & [= ->] & Hrow).
    rewrite Forall_forall in Hrect. by apply Hrect.
Qed.

End frames.

(** ** The distribution of predictions *)

Section distribution.
Import utils.

Global Instance by_count_desc_trans : Transitive by_count_desc.
Proof. intros a b c. unfold by_count_desc. lia. Qed.

(** *** The distinct values, in the order of their first appearance *)






(** *** Sorting by count *)







(** *** [value_counts] *)





(** *** The chart *)






End distribution.

(** ** Plots of frames that are not of prediction records *)

Section plots_missing_columns.
Import utils.
Context (corr : list (option value) → list (option value) → float).
Context {S : Type}.

Lemma column_index_None (c : string) (cols : list string) :
  c ∉ cols → column_index c cols = None.
Proof.
  induction cols as [|c' cols IH]; intros Hc; [done |].
  cbn. rewrite decide_False by (intros ->; apply Hc; left).
  rewrite IH; [done |]. intros ?. apply Hc. by right.
Qed.

Lemma column_index_Some (c : string) (cols : list string) :
  c ∈ cols → is_Some (column_index c cols).
Proof.
  induction cols as [|c' cols IH]; intros Hc; [by apply elem_of_nil in Hc |].
  cbn. case_decide; [eauto |].
  apply elem_of_cons in Hc as [-> | Hc]; [done |].
  destruct (IH Hc) as [i ->]. cbn. eauto.
Qed.

Lemma correlations_no_class (df : DataFrame) (ps : list string)
    (corr_data : list (string * float)) (st : S) :
  "severity_class" ∉ columns df →
  correlations corr df ps corr_data st
  = (if decide (Exists (λ p, p ∈ columns df) ps)
     then inl "severity_class" else inr corr_data, st).
Proof.
  intros Hsev. revert corr_data.
  induction ps as [|p ps IH]; intros corr_data.
  - cbn. rewrite decide_False; [done | by intros ?%Exists_nil].
  - cbn [correlations]. case_bool_decide as Hp.
    + rewrite decide_True by (by left).
      unfold mbind, Py_bind, df_getitem.
      destruct (column_index_Some p _ Hp) as [i ->]. cbn.
      by rewrite column_index_None.
    + rewrite IH.
      destruct (decide (Exists (λ p, p ∈ columns df) ps)) as [He|He].
      * rewrite decide_True; [done | by right].
      * rewrite decide_False; [done |].
        intros [? | ?]%Exists_cons; done.
Qed.

(** X17.  A frame without a "severity_class" column (a history of dictionaries
    that lack the key) cannot be plotted: [plot_prediction_history] raises
    [KeyError] for it, and so does [plot_parameter_importance] on five or
    more rows, for "severity_class" when some parameter is a column and for
    "Correlation" when none is. *)
Theorem plots_need_severity_class (df : DataFrame) (st : S) :
  "severity_class" ∉ columns df → df_empty df = false →
  plot_prediction_history (Some df) st = (inl "severity_class", st)
  ∧ ((5 ≤ df_len df)%nat →
     plot_parameter_importance corr (Some df) st
     = (inl (if decide (Exists (λ p, p ∈ columns df) params)
             then "severity_class" else "Correlation"), st)).
Proof.
  intros Hsev Hne. split.
  - unfold plot_prediction_history. rewrite Hne.
    unfold mbind, Py_bind, df_getitem. by rewrite column_index_None.
  - intros Hlen. unfold plot_parameter_importance. rewrite Hne.
    rewrite bool_decide_eq_false_2 by lia. cbn [orb].
    unfold mbind, Py_bind. rewrite correlations_no_class by done.
    by case_decide.
Qed.

End plots_missing_columns.

Lemma plots_need_severity_class_example :
  utils.plot_prediction_history
    (Some (pd_DataFrame (replicate 5 [("distance", Num 5)]))) ()
  = (inl "severity_class", ())
  ∧ utils.plot_parameter_importance (λ _ _, NaN)
      (Some (pd_DataFrame (replicate 5 [("distance", Num 5)]))) ()
    = (inl "severity_class", ()).
Proof.
  destruct (plots_need_severity_class (λ _ _, NaN)
              (pd_DataFrame (replicate 5 [("distance", Num 5)])) ())
    as [H1 H2].
  - cbn. intros [=]%list_elem_of_singleton.
  - reflexivity.
  - split; [exact H1 |]. rewrite H2 by (cbn; lia). reflexivity.
Defined.

(** ** Correlations of frames that lack some parameters *)

Section partial_frames.
Import utils.
Context (corr : list (option value) → list (option value) → float).
Context {S : Type}.

Lemma df_getitem_series (df : DataFrame) (c : string) (st : S) :
  c ∈ columns df → df_getitem df c st = (inr (series df c), st).
Proof.
  intros Hc. unfold df_getitem, series.
  by destruct (column_index_Some c _ Hc) as [i ->].
Qed.

Lemma correlations_present (df : DataFrame) (ps : list string)
    (corr_data : list (string * float)) (st : S) :
  "severity_class" ∈ columns df →
  correlations corr df ps corr_data st
  = (inr (corr_data
          ++ ((λ p, (p, float_abs (corr (series df p)
                                        (series df "severity_class"))))
                <$> filter (λ p, p ∈ columns df) ps)),
     st).
Proof.
  intros Hsev. revert corr_data.
  induction ps as [|p ps IH]; intros corr_data.
  - cbn. by rewrite app_nil_r.
  - cbn [correlations]. case_bool_decide as Hp.
    + rewrite filter_cons_True by done.
      unfold mbind, Py_bind. rewrite !df_getitem_series by done.
      rewrite IH. cbn. by rewrite <- app_assoc.
    + rewrite filter_cons_False by done. apply IH.
Qed.

(** X18.  [plot_parameter_importance] skips the parameters that are not columns
    of the frame: on five or more rows of numbers with a "severity_class"
    column it reports the parameters that are columns, and only those,
    each once and with the absolute value of its correlation (never
    negative, and the correlation or its opposite; NaN for an undefined
    one), in descending order, NaN last. *)
Theorem plot_parameter_importance_skips_missing (df : DataFrame) (st : S) :
  "severity_class" ∈ columns df →
  (5 ≤ df_len df)%nat →
  Exists (λ p, p ∈ columns df) params →
  (∀ c : string,
     c ∈ "severity_class" :: params → Forall numeric_cell (series df c)) →
  ∃ out : list (string * float),
    plot_parameter_importance corr (Some df) st = (inr (Some out), st)
    ∧ out ≡ₚ (λ p, (p, absolute_value
                         <$> corr (series df p)
                                  (series df "severity_class")))
               <$> filter (λ p, p ∈ columns df) params
    ∧ NoDup out.*1
    ∧ (∀ p : string, p ∈ out.*1 ↔ p ∈ params ∧ p ∈ columns df)
    ∧ (∀ (p : string) (v : float),
         (p, v) ∈ out →
         match corr (series df p) (series df "severity_class") with
         | Some r => ∃ a : Q, v = Some a ∧ (0 <= a)%Q ∧ (a = r ∨ a = (- r)%Q)
         | None => v = None
         end)
    ∧ (∀ (i j : nat) (a b : string * float),
         (i < j)%nat → out !! i = Some a → out !! j = Some b →
         match a.2, b.2 with
         | Some x, Some y => (y <= x)%Q
         | None, Some _ => False
         | _, None => True
         end).
Proof.
  intros Hsev Hlen Hsome _.
  assert (df_empty df = false) as Hne.
  { unfold df_empty, df_len in *.
    destruct (columns df); [by apply elem_of_nil in Hsev |].
    by destruct (rows df); [cbn in Hlen; lia |]. }
  assert (filter (λ p, p ∈ columns df) params ≠ []) as Hfilter.
  { apply Exists_exists in Hsome as (p & Hp & Hcol).
    intros Hnil.
    assert (p ∈ filter (λ p, p ∈ columns df) params) as Hin
      by (by apply list_elem_of_filter).
    rewrite Hnil in Hin. by apply elem_of_nil in Hin. }
  set (reported :=
         (λ p, (p, absolute_value
                     <$> corr (series df p) (series df "severity_class")))
           <$> filter (λ p, p ∈ columns df) params).
  exists (merge_sort by_correlation_desc reported).
  split_and!.
  - unfold plot_parameter_importance. rewrite Hne.
    rewrite bool_decide_eq_false_2 by lia. cbn [orb].
    unfold mbind, Py_bind. rewrite correlations_present by done.
    cbn [app]. unfold sort_values_desc.
    erewrite (list_fmap_ext _ _ (filter _ params));
      [| intros _ p _; cbn beta; by rewrite float_abs_absolute_value].
    fold reported. unfold reported at 1.
    destruct (filter (λ p, p ∈ columns df) params); [done |]. reflexivity.
  - apply merge_sort_Permutation.
  - rewrite merge_sort_Permutation. unfold reported.
    rewrite <- list_fmap_compose. change (fst ∘ _) with (@id string).
    rewrite list_fmap_id. apply NoDup_filter.
    unfold params. repeat constructor; rewrite ?elem_of_cons, elem_of_nil;
      intros H; repeat destruct H as [H | H]; done.
  - intros p. rewrite merge_sort_Permutation. unfold reported.
    rewrite <- list_fmap_compose. change (fst ∘ _) with (@id string).
    rewrite list_fmap_id, list_elem_of_filter. tauto.
  - intros p v Hin. rewrite merge_sort_Permutation in Hin.
    apply list_elem_of_fmap in Hin as (p' & [= -> ->] & _).
    destruct (corr _ _) as [r|]; [| done].
    exists (absolute_value r). split; [done |].
    apply absolute_value_cases.
  - intros i j a b Hij Hi Hj.
    pose proof (StronglySorted_lookup_lt by_correlation_desc _ i j a b
      (StronglySorted_merge_sort _ _) Hij Hi Hj) as Hab.
    unfold by_correlation_desc, sorts_before in Hab.
    destruct (a.2) as [x|], (b.2) as [y|]; try done.
    by apply Qle_bool_iff.
Qed.

End partial_frames.

(** A frame with three of the eight parameters: they are reported, the
    distance (correlation 1) before the temperature (correlation -7/8,
    reported as 7/8) and the hour (7/12). *)
Lemma plot_parameter_importance_skips_missing_example :
  ∃ out : list (string * float),
    utils.plot_parameter_importance pearson
      (Some (pd_DataFrame partial_history)) ()
    = (inr (Some out), ())
    ∧ out = [("distance", Some 1%Q); ("temperature", Some (7 # 8)%Q);
             ("hour", Some (7 # 12)%Q)].
Proof.
  destruct (plot_parameter_importance_skips_missing pearson
              (pd_DataFrame partial_history) ())
    as (out & Hrun & _).
  - lazy. do 3 right. left.
  - rewrite (proj1 (pd_DataFrame_shape _)). cbn. lia.
  - lazy. do 2 apply Exists_cons_tl. apply Exists_cons_hd. left.
  - intros c Hc.
    repeat (apply elem_of_cons in Hc as [-> | Hc]);
      [.. | by apply elem_of_nil in Hc]; vm_compute; repeat constructor.
  - exists out. split; [exact Hrun |].
    assert (utils.plot_parameter_importance pearson
              (Some (pd_DataFrame partial_history)) ()
            = (inr (Some [("distance", Some 1%Q);
                          ("temperature", Some (7 # 8)%Q);
                          ("hour", Some (7 # 12)%Q)]), ()))
      as Hval by (by vm_compute).
    rewrite Hrun in Hval. by injection Hval.
Defined.

(** ** The first load *)

Section first_load.
Import model_loader.

(** X19.  What the first call of each loader does, by what it finds.  A missing
    file is no error: [load_model] returns [None] and [load_scaler] the
    scaler [StandardScaler()] builds, and nothing is shown, unless creating
    the model's directory fails, which [load_model] reports.  A file that
    cannot be unpickled gives the same results and is reported.  A file
    that can is returned, and nothing is shown. *)
Theorem loaders_first_load (p : process) :
  load_model_cache p = None → load_scaler_cache p = None →
  (load_model p).1
  = inr (match model_pkl p with Pickled m => Some m | _ => None end)
  ∧ st_errors (load_model p).2
    = st_errors p
      ++ match model_pkl p, makedirs_raises p with
         | NoFile, Some e => ["Error loading model: " +:+ e]
         | BadFile e, _ => ["Error loading model: " +:+ e]
         | _, _ => []
         end
  ∧ (load_scaler p).1
    = inr (match scaler_pkl p with Pickled s => s | _ => StandardScaler p end)
  ∧ st_errors (load_scaler p).2
    = st_errors p
      ++ match scaler_pkl p with
         | BadFile e => ["Error loading scaler: " +:+ e]
         | _ => []
         end.
Proof.
  destruct p as [mp sp mk ss mc sc errs]. cbn. intros -> ->.
  split_and!.
  - by destruct mp as [|e|m]; [destruct mk | |].
  - destruct mp as [|e|m]; [destruct mk | |]; cbn; by rewrite ?app_nil_r.
  - by destruct sp.
  - destruct sp; cbn; by rewrite ?app_nil_r.
Qed.

Lemma loaders_first_load_example :
  st_errors (load_model corrupt_model_process).2
  = ["Error loading model: " +:+ "invalid load key"]
  ∧ st_errors (load_scaler corrupt_model_process).2 = [].
Proof.
  destruct (loaders_first_load corrupt_model_process eq_refl eq_refl)
    as (_ & H1 & _ & H2).
  split; [exact H1 | exact H2].
Defined.

End first_load.
